(** * Hostdreambackend: the product-catalog server of [src/server.js]

    A shallow embedding of the Express application.  The two Mongoose
    collections are lists inside a [State]; every [async] handler is an
    [Action] in a small state-and-exception monad (an [await] is a bind,
    [try]/[catch] is [try_catch]); a route is its middleware chain; and
    the calls that leave the process (Cloudinary, the writes to the
    store) are appended to a log, so that their number and order can be
    stated.

    What lies outside the file is kept symbolic: a token is a payload
    together with the key that signed it, bcrypt's comparison of two
    strings is a parameter, the outcome of an upload and of a Cloudinary
    deletion is part of the input.  The store itself does not fail, and
    requests are served one at a time.  The text fields of a product's
    body are strings or absent, as multer delivers them; the email of a
    login can also be a query, and its password can be missing.

    [src/unnamed/part_000] is another revision of the same file, whose
    schema and create handler also require a [price]; the embedding
    follows [src/server.js]. *)

From Stdlib Require Import String Ascii ZArith NArith List Bool Lia.
Import ListNotations.
Open Scope string_scope.
Open Scope list_scope.
Open Scope Z_scope.

(** ** Data model *)

(** A Mongoose [ObjectId]: twelve bytes, read as a number. *)
Definition ObjectId := N.
Bind Scope N_scope with ObjectId.

(** [UserSchema]. *)
Record User := mkUser {
  user_id : ObjectId;
  email : string;
  password : string;          (* the bcrypt hash *)
  isAdmin : bool
}.

(** [ProductSchema].  A field holds [None] when the document has [null]
    or nothing there.  [name] and [category] are required by the schema
    when a document is saved, but an update does not run the validators,
    so a stored document can lack them. *)
Record Product := mkProduct {
  _id : ObjectId;
  name : option string;
  category : option string;
  subCategory : option string;
  description : option string;
  imageUrl : option string;
  cloudinaryId : option string;
  featured : option bool
}.

(** The payload of a token: what [jwt.sign] is given, with the [iat] and
    [exp] it adds.  [claim_isAdmin] is [None] for a payload without the
    claim. *)
Record Claims := mkClaims {
  claim_id : ObjectId;
  claim_isAdmin : option bool;
  claim_iat : Z;
  claim_exp : option Z
}.

(** One space-separated piece of the [Authorization] header.  Tokens are
    symbolic: [Jws p k] is the compact serialisation of payload [p] signed
    with key [k]; everything else is [Text]. *)
Inductive word :=
| Text (s : string)
| Jws (payload : Claims) (key : string).

(** [req.file] as multer leaves it. *)
Record File := mkFile {
  path : string;
  filename : string
}.

(** What [uploadMiddleware] (multer's [single("image")]) makes of the
    request: no file part, a file handed to the storage engine, or an
    error (a file under another field name, a format Cloudinary refuses,
    a backend that is down), in which case multer calls [next(err)]. *)
Inductive upload :=
| NoFile
| Stored (f : File)
| UploadError (err : string).

(** [req.params.id] as Mongoose's cast to [ObjectId] sees it. *)
Inductive param :=
| Malformed (s : string)
| WellFormed (id : ObjectId).

(** [req.body.email] as it reaches [User.findOne({ email })].  A string
    selects the accounts with exactly that address.  Anything else (an
    object of query operators such as [{"$ne": ""}], or no key at all)
    is handed to the store as it is: [ByQuery] stands for it, with the
    stored addresses that the store then selects. *)
Inductive email_filter :=
| ByText (s : string)
| ByQuery (selects : string -> bool).

(** The parts of an Express request that the routes read.
    [authorization] is [None] when the header is missing or empty (both
    falsy) and otherwise the header cut at spaces, [token.split(" ")].
    The text fields of the body are [None] when absent ([undefined]);
    [body_password] is also [None] when the body has something there
    that is not a string. *)
Record Request := mkRequest {
  authorization : option (list word);
  params_id : param;
  query_limit : option string;
  body_email : email_filter;
  body_password : option string;
  body_name : option string;
  body_category : option string;
  body_subCategory : option string;
  body_description : option string;
  body_featured : option bool;
  multipart : upload
}.

(** [process.env]. *)
Record ProcessEnv := mkEnv {
  SECRET_KEY : option string;
  CLOUDINARY_CLOUD_NAME : option string;
  CLOUDINARY_API_KEY : option string;
  CLOUDINARY_API_SECRET : option string
}.

(** What a request meets outside the process: the clock ([Date.now()] in
    seconds) and whether [cloudinary.uploader.destroy] resolves for a
    key. *)
Record Outside := mkOutside {
  clock : Z;
  destroy_resolves : string -> bool
}.

(** The calls that the handlers make to the store (its writes) and to the
    media backend (its deletions), in the order they are made.  What
    [uploadMiddleware] does before a handler runs, storing the file on
    Cloudinary or on the disk, is not recorded. *)
Inductive effect :=
| Destroy (key : string)          (* cloudinary.uploader.destroy(key) *)
| Insert (id : ObjectId)          (* newProduct.save() *)
| Update (id : ObjectId)          (* Product.findByIdAndUpdate *)
| Remove (id : ObjectId).         (* Product.findByIdAndDelete *)

Record State := mkState {
  users : list User;
  products : list Product;        (* in the store's natural order *)
  next_id : ObjectId;             (* the next ObjectId to be generated *)
  log : list effect
}.

(** The JSON bodies the server sends. *)
Inductive ResBody :=
| Message (message : string)
| MessageError (message error : string)
| TokenUser (token : word) (user : User)
| MessageProduct (message : string) (product : Product)
| Doc (doc : option Product)                (* a document, or null *)
| Docs (docs : list Product)
| ErrorPage (err : string).                 (* Express's default error handler *)

Record Response := mkResponse {
  status : Z;
  body : ResBody
}.

(** ** JavaScript truthiness *)

(** A string is truthy unless it is empty; [undefined] and [null] are
    falsy. *)
Definition truthy (v : option string) : bool :=
  match v with
  | Some s => negb (s =? "")%string
  | None => false
  end.

Definition truthy_flag (v : option bool) : bool :=
  match v with
  | Some b => b
  | None => false
  end.

(** ** The handler monad *)

Inductive outcome (A : Type) :=
| Ok (a : A)
| Thrown (e : string).
Arguments Ok {A} a.
Arguments Thrown {A} e.

Definition Action (A : Type) := State -> outcome A * State.

Definition ret {A} (a : A) : Action A := fun st => (Ok a, st).

Definition bind {A B} (m : Action A) (k : A -> Action B) : Action B :=
  fun st =>
    match m st with
    | (Ok a, st') => k a st'
    | (Thrown e, st') => (Thrown e, st')
    end.

Definition throw {A} (e : string) : Action A := fun st => (Thrown e, st).

(** [try { m } catch (e) { h e }]: what [m] did to the state before it
    threw stays done. *)
Definition try_catch {A} (m : Action A) (h : string -> Action A) : Action A :=
  fun st =>
    match m st with
    | (Ok a, st') => (Ok a, st')
    | (Thrown e, st') => h e st'
    end.

Definition emit (e : effect) : Action unit :=
  fun st => (Ok tt, mkState (users st) (products st) (next_id st) (log st ++ [e])).

Declare Scope action_scope.
Delimit Scope action_scope with action.
Notation "x <- m ;; k" := (bind m (fun x => k))
  (at level 61, m at next level, right associativity) : action_scope.
Notation "m ;;; k" := (bind m (fun _ => k))
  (at level 61, right associativity) : action_scope.
Open Scope action_scope.

Definition json (code : Z) (b : ResBody) : Action Response :=
  ret (mkResponse code b).

(** ** [Number.parseInt] *)

(** ECMAScript's [parseInt] with no radix: leading white space is
    dropped, then an optional sign, then [0x] or [0X] selects radix 16
    (otherwise 10), then the longest run of digits of that radix is read;
    with no digit the result is [NaN], here [None].  (The value is
    exact, where JavaScript rounds above 2^53.)

    A string is its text in UTF-8, one [ascii] per byte.  The white
    space that is dropped is ECMAScript's WhiteSpace and LineTerminator:
    the six ASCII characters, U+00A0 (two bytes), and U+1680,
    U+2000..U+200A, U+2028, U+2029, U+202F, U+205F, U+3000 and U+FEFF
    (three bytes each). *)
Definition is_ascii_white_space (n : nat) : bool :=
  ((n =? 32) || (n =? 9) || (n =? 10) || (n =? 11) || (n =? 12) || (n =? 13))%nat.

Definition leads_three_byte_space (n : nat) : bool :=
  ((n =? 225) || (n =? 226) || (n =? 227) || (n =? 239))%nat.

Definition is_three_byte_space (n1 n2 n3 : nat) : bool :=
  ((n1 =? 225) && (n2 =? 154) && (n3 =? 128)                          (* U+1680 *)
   || (n1 =? 226) && (n2 =? 128) && (128 <=? n3) && (n3 <=? 138)     (* U+2000..U+200A *)
   || (n1 =? 226) && (n2 =? 128) && ((n3 =? 168) || (n3 =? 169))     (* U+2028, U+2029 *)
   || (n1 =? 226) && (n2 =? 128) && (n3 =? 175)                      (* U+202F *)
   || (n1 =? 226) && (n2 =? 129) && (n3 =? 159)                      (* U+205F *)
   || (n1 =? 227) && (n2 =? 128) && (n3 =? 128)                      (* U+3000 *)
   || (n1 =? 239) && (n2 =? 187) && (n3 =? 191))%nat.                (* U+FEFF *)

Fixpoint trim_start (s : string) : string :=
  match s with
  | String c rest =>
      let n := nat_of_ascii c in
      if is_ascii_white_space n then trim_start rest
      else if (n =? 194)%nat then
        match rest with
        | String c2 rest2 =>
            if (nat_of_ascii c2 =? 160)%nat then trim_start rest2 else s   (* U+00A0 *)
        | EmptyString => s
        end
      else if leads_three_byte_space n then
        match rest with
        | String c2 (String c3 rest3) =>
            if is_three_byte_space n (nat_of_ascii c2) (nat_of_ascii c3)
            then trim_start rest3 else s
        | _ => s
        end
      else s
  | EmptyString => s
  end.

Definition digit_value (radix : Z) (c : ascii) : option Z :=
  let n := Z.of_nat (nat_of_ascii c) in
  let v :=
    if (48 <=? n) && (n <=? 57) then n - 48
    else if (97 <=? n) && (n <=? 122) then n - 87
    else if (65 <=? n) && (n <=? 90) then n - 55
    else 36 in
  if v <? radix then Some v else None.

Fixpoint parse_digits (radix : Z) (s : string) (acc : option Z) : option Z :=
  match s with
  | String c rest =>
      match digit_value radix c with
      | Some d =>
          parse_digits radix rest
            (Some (radix * match acc with Some a => a | None => 0 end + d))
      | None => acc
      end
  | EmptyString => acc
  end.

Definition parseInt (input : string) : option Z :=
  let s := trim_start input in
  let '(sign, s) :=
    match s with
    | String "-" rest => (-1, rest)
    | String "+" rest => (1, rest)
    | _ => (1, s)
    end in
  let '(radix, s) :=
    match s with
    | String "0" (String "x" rest) => (16, rest)
    | String "0" (String "X" rest) => (16, rest)
    | _ => (10, s)
    end in
  match parse_digits radix s None with
  | Some v => Some (sign * v)
  | None => None
  end.

Definition is_decimal_digit (c : ascii) : bool :=
  let n := Z.of_nat (nat_of_ascii c) in (48 <=? n) && (n <=? 57).

(** The decimal numeral of a non-negative integer, as it is written in a
    query string ([String(n)] in JavaScript).  [fuel] bounds the number
    of digits. *)
Definition digit_char (d : Z) : ascii := ascii_of_nat (Z.to_nat (48 + d)).

Fixpoint decimal_digits (fuel : nat) (n : Z) (tail : string) : string :=
  match fuel with
  | O => tail
  | S fuel' =>
      let tail' := String (digit_char (n mod 10)) tail in
      if n <? 10 then tail' else decimal_digits fuel' (n / 10) tail'
  end.

Definition decimal (n : Z) : string :=
  decimal_digits (S (Z.to_nat (Z.log2 n))) n "".

(** ** jsonwebtoken *)

(** [jwt.sign(payload, secret, { expiresIn })]: throws without a secret;
    otherwise stamps [iat] and [exp = iat + expiresIn] and signs. *)
Definition jwt_sign (id : ObjectId) (admin : option bool) (secret : option string)
    (now expiresIn : Z) : outcome word :=
  match secret with
  | Some k =>
      if truthy secret
      then Ok (Jws (mkClaims id admin now (Some (now + expiresIn))) k)
      else Thrown "secretOrPrivateKey must have a value"
  | None => Thrown "secretOrPrivateKey must have a value"
  end.

(** [jwt.verify(token, secret)]: returns the payload of a token signed
    with [secret] whose [exp], if any, is still ahead of the clock, and
    throws in every other case.  Tokens without a signature are not
    values of [word]: what a server without a secret does with them
    depends on the version of jsonwebtoken and is not stated here. *)
Definition jwt_verify (token : option word) (secret : option string) (now : Z)
    : outcome Claims :=
  match token with
  | None => Thrown "jwt must be provided"
  | Some (Text s) =>
      if (s =? "")%string then Thrown "jwt must be provided" else Thrown "jwt malformed"
  | Some (Jws payload key) =>
      match secret with
      | Some k =>
          if negb (truthy secret) then Thrown "secret or public key must be provided"
          else if negb (key =? k)%string then Thrown "invalid signature"
          else match claim_exp payload with
               | Some e => if e <=? now then Thrown "jwt expired" else Ok payload
               | None => Ok payload
               end
      | None => Thrown "secret or public key must be provided"
      end
  end.

(** ** The collections *)

Definition has_id (id : ObjectId) (p : Product) : bool := (_id p =? id)%N.

(** [User.findOne({ email })]. *)
Definition selected (filter : email_filter) (u : User) : bool :=
  match filter with
  | ByText s => (email u =? s)%string
  | ByQuery selects => selects (email u)
  end.

Definition User_findOne (filter : email_filter) : Action (option User) :=
  fun st => (Ok (find (selected filter) (users st)), st).

(** Mongoose casts the id before it queries and throws a [CastError] on
    a string that is no ObjectId. *)
Definition castObjectId (p : param) : Action ObjectId :=
  match p with
  | WellFormed id => ret id
  | Malformed s => throw "Cast to ObjectId failed"
  end.

(** [Product.findById(id)]. *)
Definition Product_findById (p : param) : Action (option Product) :=
  id <- castObjectId p ;;
  fun st => (Ok (find (has_id id) (products st)), st).

(** [new Product({...})]: a fresh [_id], and [featured] takes the
    schema's default.  The counter [next_id] stands for Mongoose's
    generator of ObjectIds, whose values are not successive; what the
    model takes from it is that a new id differs from the stored ones. *)
Definition new_Product (name category subCategory description imageUrl cloudinaryId
    : option string) : Action Product :=
  fun st =>
    (Ok (mkProduct (next_id st) name category subCategory description imageUrl
           cloudinaryId (Some false)),
     mkState (users st) (products st) (N.succ (next_id st)) (log st)).

(** [doc.save()]: the schema's [required] validators run, then the
    document is appended to the collection. *)
Definition save (doc : Product) : Action unit :=
  if truthy (name doc) && truthy (category doc)
  then
    emit (Insert (_id doc)) ;;;
    fun st => (Ok tt, mkState (users st) (products st ++ [doc]) (next_id st) (log st))
  else throw "Product validation failed".

Fixpoint replace_first (id : ObjectId) (f : Product -> Product) (ps : list Product)
    : list Product :=
  match ps with
  | p :: rest => if has_id id p then f p :: rest else p :: replace_first id f rest
  | [] => []
  end.

Fixpoint remove_first (id : ObjectId) (ps : list Product) : list Product :=
  match ps with
  | p :: rest => if has_id id p then rest else p :: remove_first id rest
  | [] => []
  end.

(** [Product.findByIdAndUpdate(id, update, { new: true })]: [null] when
    no document has the id, otherwise the document after the update. *)
Definition Product_findByIdAndUpdate (p : param) (update : Product -> Product)
    : Action (option Product) :=
  id <- castObjectId p ;;
  emit (Update id) ;;;
  fun st =>
    (Ok (option_map update (find (has_id id) (products st))),
     mkState (users st) (replace_first id update (products st)) (next_id st) (log st)).

(** [Product.findByIdAndDelete(id)]. *)
Definition Product_findByIdAndDelete (p : param) : Action (option Product) :=
  id <- castObjectId p ;;
  emit (Remove id) ;;;
  fun st =>
    (Ok (find (has_id id) (products st)),
     mkState (users st) (remove_first id (products st)) (next_id st) (log st)).

(** [Product.find()], with [query.limit(n)] when a limit was set. *)
Definition Product_find (limit : option Z) : Action (list Product) :=
  fun st =>
    (Ok match limit with
        | Some n => firstn (Z.to_nat n) (products st)
        | None => products st
        end, st).

(** [cloudinary.uploader.destroy(key)]: the call is made, and the
    promise resolves or rejects. *)
Definition cloudinary_destroy (o : Outside) (key : string) : Action unit :=
  emit (Destroy key) ;;;
  if destroy_resolves o key then ret tt else throw "cloudinary: destroy failed".

(** ** The application *)

Section Server.

(** The process configuration, read once when the server starts. *)
Variable env : ProcessEnv.

(** [bcrypt.compare(plaintext, hash)]: the slow salted comparison of two
    strings.  Called with anything else for a plaintext it rejects, which
    [login_handler] writes out. *)
Variable bcrypt_compare : string -> string -> bool.

(** What Mongoose does with a key whose value is [undefined] in an
    update: it drops the key (Mongoose 6 and later, and [omitUndefined]
    before), or it writes [null] (Mongoose 5 by default). *)
Variable omitUndefined : bool.

Definition isCloudinaryConfigured : bool :=
  truthy (CLOUDINARY_CLOUD_NAME env) &&
  truthy (CLOUDINARY_API_KEY env) &&
  truthy (CLOUDINARY_API_SECRET env).

(** One key of the update object of [findByIdAndUpdate]. *)
Definition set_key {A} (new old : option A) : option A :=
  match new with
  | Some _ => new
  | None => if omitUndefined then old else None
  end.

(** *** Middleware *)

(** [verifyToken]: answers itself ([inl]) or calls [next()] with
    [req.user] set ([inr]). *)
Definition verifyToken (o : Outside) (req : Request) : Response + Claims :=
  match authorization req with
  | None => inl (mkResponse 403 (Message "❌ Access Denied. No token provided."))
  | Some token =>
      match jwt_verify (nth_error token 1) (SECRET_KEY env) (clock o) with
      | Ok decoded => inr decoded
      | Thrown error => inl (mkResponse 401 (Message "❌ Invalid or Expired Token"))
      end
  end.

(** [uploadMiddleware]: sets [req.file] and calls [next()], or calls
    [next(err)], which no handler of the application takes up, so that
    Express's default error handler answers 500. *)
Definition uploadMiddleware (req : Request) : Response + option File :=
  match multipart req with
  | NoFile => inr None
  | Stored f => inr (Some f)
  | UploadError err => inl (mkResponse 500 (ErrorPage err))
  end.

(** *** Handlers *)

(** [POST /api/login]. *)
Definition login_handler (o : Outside) (req : Request) : Action Response :=
  try_catch
    (admin <- User_findOne (body_email req) ;;
     match admin with
     | None => json 400 (Message "❌ Admin not found.")
     | Some admin =>
         match body_password req with
         | Some plain =>
             let isMatch := bcrypt_compare plain (password admin) in
             if negb isMatch then json 400 (Message "❌ Incorrect password.")
             else
               match jwt_sign (user_id admin) (Some true) (SECRET_KEY env) (clock o)
                       86400 with
               | Ok token => json 200 (TokenUser token admin)
               | Thrown e => throw e
               end
         | None => throw "Illegal arguments: undefined, string"
         end
     end)
    (fun error => json 500 (Message "❌ Internal Server Error")).

(** The image fields of a new or updated product. *)
Definition image_fields (file : option File) (imageUrl cloudinaryId : option string)
    : option string * option string :=
  match file with
  | Some f =>
      if isCloudinaryConfigured
      then (Some (path f), Some (filename f))
      else (Some ("/uploads/" ++ filename f)%string, cloudinaryId)
  | None => (imageUrl, cloudinaryId)
  end.

(** [POST /api/products], the handler after the two middlewares. *)
Definition create_handler (user : Claims) (file : option File) (req : Request)
    : Action Response :=
  try_catch
    (if negb (truthy_flag (claim_isAdmin user))
     then json 403 (Message "❌ Unauthorized. Admin access required.")
     else
       if negb (truthy (body_name req)) || negb (truthy (body_category req))
       then json 400 (Message "⚠️ Missing required fields.")
       else
         let '(imageUrl, cloudinaryId) := image_fields file None None in
         newProduct <- new_Product (body_name req) (body_category req)
                         (body_subCategory req) (body_description req)
                         imageUrl cloudinaryId ;;
         save newProduct ;;;
         json 201 (MessageProduct "✅ Product added successfully" newProduct))
    (fun error => json 500 (MessageError "❌ Server Error" error)).

(** The update object of [PUT /api/products/:id] applied to a document. *)
Definition put_update (req : Request) (url key : option string)
    (p : Product) : Product :=
  mkProduct (_id p)
    (set_key (body_name req) (name p))
    (set_key (body_category req) (category p))
    (set_key (body_subCategory req) (subCategory p))
    (set_key (body_description req) (description p))
    (set_key url (imageUrl p))
    (set_key key (cloudinaryId p))
    (featured p).

(** The best-effort deletion of a stored image: the inner [try]/[catch]
    of the update and delete handlers, which only logs to the console. *)
Definition destroy_old_image (o : Outside) (key : string) : Action unit :=
  try_catch (cloudinary_destroy o key) (fun err => ret tt).

(** [PUT /api/products/:id], the handler after the two middlewares. *)
Definition update_handler (o : Outside) (user : Claims) (file : option File)
    (req : Request) : Action Response :=
  try_catch
    (if negb (truthy_flag (claim_isAdmin user))
     then json 403 (Message "❌ Unauthorized. Admin access required.")
     else
       product <- Product_findById (params_id req) ;;
       match product with
       | None => json 404 (Message "❌ Product not found")
       | Some product =>
           match file with
           | Some _ =>
               if isCloudinaryConfigured && truthy (cloudinaryId product)
               then destroy_old_image o (match cloudinaryId product with
                                         | Some k => k | None => "" end)
               else ret tt
           | None => ret tt
           end ;;;
           let '(imageUrl, cloudinaryId) :=
             image_fields file (imageUrl product) (cloudinaryId product) in
           updatedProduct <- Product_findByIdAndUpdate (params_id req)
                               (put_update req imageUrl cloudinaryId) ;;
           json 200 (Doc updatedProduct)
       end)
    (fun error => json 500 (MessageError "❌ Server Error" error)).

(** [DELETE /api/products/:id], the handler after [verifyToken]. *)
Definition delete_handler (o : Outside) (user : Claims) (req : Request)
    : Action Response :=
  try_catch
    (if negb (truthy_flag (claim_isAdmin user))
     then json 403 (Message "❌ Unauthorized. Admin access required.")
     else
       product <- Product_findById (params_id req) ;;
       match product with
       | None => json 404 (Message "❌ Product not found")
       | Some product =>
           (if isCloudinaryConfigured && truthy (cloudinaryId product)
            then destroy_old_image o (match cloudinaryId product with
                                      | Some k => k | None => "" end)
            else ret tt) ;;;
           Product_findByIdAndDelete (params_id req) ;;;
           json 200 (Message "✅ Product deleted successfully.")
       end)
    (fun error => json 500 (MessageError "❌ Server Error" error)).

(** [GET /api/products]. *)
Definition list_handler (req : Request) : Action Response :=
  try_catch
    (let limit :=
       if truthy (query_limit req)
       then parseInt (match query_limit req with Some s => s | None => "" end)
       else Some 0 in
     let query :=
       match limit with
       | Some n => if 0 <? n then Some n else None
       | None => None
       end in
     products <- Product_find query ;;
     json 200 (Docs products))
    (fun error => json 500 (MessageError "❌ Server Error" error)).

(** The update object of [PATCH /api/products/:id]. *)
Definition patch_update (req : Request) (p : Product) : Product :=
  mkProduct (_id p) (name p) (category p) (subCategory p) (description p)
    (imageUrl p) (cloudinaryId p) (set_key (body_featured req) (featured p)).

(** [PATCH /api/products/:id], the handler after [verifyToken]. *)
Definition patch_handler (user : Claims) (req : Request) : Action Response :=
  try_catch
    (if negb (truthy_flag (claim_isAdmin user))
     then json 403 (Message "❌ Unauthorized. Admin access required.")
     else
       updatedProduct <- Product_findByIdAndUpdate (params_id req) (patch_update req) ;;
       json 200 (Doc updatedProduct))
    (fun error => json 500 (MessageError "❌ Server Error" error)).

(** *** Routes *)

(** A route is its middleware chain: a middleware that answers ends the
    request and leaves the state as it was. *)
Inductive route :=
| POST_login
| POST_products
| PUT_products
| DELETE_products
| GET_products
| PATCH_products.

Definition protected (o : Outside) (req : Request)
    (next : Claims -> Action Response) : Action Response :=
  match verifyToken o req with
  | inl res => ret res
  | inr user => next user
  end.

Definition uploading (req : Request)
    (next : option File -> Action Response) : Action Response :=
  match uploadMiddleware req with
  | inl res => ret res
  | inr file => next file
  end.

Definition serve (r : route) (o : Outside) (req : Request) : Action Response :=
  match r with
  | POST_login => login_handler o req
  | POST_products =>
      protected o req (fun user => uploading req (fun file => create_handler user file req))
  | PUT_products =>
      protected o req (fun user => uploading req (fun file => update_handler o user file req))
  | DELETE_products => protected o req (fun user => delete_handler o user req)
  | GET_products => list_handler req
  | PATCH_products => protected o req (fun user => patch_handler user req)
  end.

End Server.

Arguments isCloudinaryConfigured env : simpl never.

(** The routes behind [verifyToken], all of them reserved to admins, and
    those among them that run [uploadMiddleware]. *)
Definition admin_only (r : route) : bool :=
  match r with
  | POST_products | PUT_products | DELETE_products | PATCH_products => true
  | POST_login | GET_products => false
  end.

Definition takes_upload (r : route) : bool :=
  match r with
  | POST_products | PUT_products => true
  | _ => false
  end.

Definition upload_failed (req : Request) : bool :=
  match multipart req with
  | UploadError _ => true
  | _ => false
  end.

(** Whether a field of a document is there. *)
Definition present {A} (v : option A) : bool :=
  match v with
  | Some _ => true
  | None => false
  end.

(** What holds of the two image fields of a stored document: a deletion
    key never comes without an image URL, and with the cloud backend
    configured an image URL never comes without a deletion key. *)
Definition image_fields_agree (env : ProcessEnv) (p : Product) : Prop :=
  (present (cloudinaryId p) = true -> present (imageUrl p) = true) /\
  (isCloudinaryConfigured env = true ->
   present (imageUrl p) = true -> present (cloudinaryId p) = true).

(** The calls to the media backend that deleting (or re-imaging) the
    document [p] makes. *)
Definition destroy_calls (env : ProcessEnv) (p : Product) : list effect :=
  match cloudinaryId p with
  | Some key =>
      if isCloudinaryConfigured env && negb (key =? "")%string then [Destroy key] else []
  | None => []
  end.

(** The UTF-8 text of a sequence of bytes, and the white space
    characters that [parseInt] drops, each as its text. *)
Definition utf8 (bytes : list nat) : string :=
  fold_right (fun b s => String (ascii_of_nat b) s) EmptyString bytes.

Definition white_space : list string :=
  map utf8
    [[9]; [10]; [11]; [12]; [13]; [32]; [194; 160]; [225; 154; 128];
     [226; 128; 128]; [226; 128; 129]; [226; 128; 130]; [226; 128; 131];
     [226; 128; 132]; [226; 128; 133]; [226; 128; 134]; [226; 128; 135];
     [226; 128; 136]; [226; 128; 137]; [226; 128; 138];
     [226; 128; 168]; [226; 128; 169]; [226; 128; 175]; [226; 129; 159];
     [227; 128; 128]; [239; 187; 191]]%nat.

(** A run of white space characters. *)
Definition padding (ws : list string) : string :=
  fold_right append EmptyString ws.

(** The integer [n] as a client writes it in [?limit=n]. *)
Definition numeral (n : Z) : string :=
  if n <? 0 then String "-" (decimal (- n)) else decimal n.

(** The [filename] callback of the local disk storage:
    [Date.now() + "-" + Math.round(Math.random() * 1e9)] followed by the
    extension of the original name.  [now] is the clock in milliseconds,
    [random] the rounded draw, [ext] what [path.extname] returned. *)
Definition uniqueSuffix (now random : Z) : string :=
  (numeral now ++ "-" ++ numeral random)%string.

Definition local_filename (now random : Z) (ext : string) : string :=
  (uniqueSuffix now random ++ ext)%string.

(** An extension as [path.extname] returns it: empty, or starting with
    a dot. *)
Definition is_extension (ext : string) : Prop :=
  match ext with
  | EmptyString => True
  | String c _ => c = "."%char
  end.

(** No two documents of the collection share an [_id], and the ids still
    to be generated are new. *)
Definition well_formed (st : State) : Prop :=
  NoDup (map _id (products st)) /\
  Forall (fun p => (_id p < next_id st)%N) (products st).

(** The states the server can be in: it starts on an empty product
    collection and then serves requests, one after the other. *)
Inductive reachable (env : ProcessEnv) (bcrypt_compare : string -> string -> bool)
    (omitUndefined : bool) : State -> Prop :=
| reachable_start us n : reachable env bcrypt_compare omitUndefined (mkState us [] n [])
| reachable_serve st r o req out st' :
    reachable env bcrypt_compare omitUndefined st ->
    serve env bcrypt_compare omitUndefined r o req st = (out, st') ->
    reachable env bcrypt_compare omitUndefined st'.

(** ** Sample configurations, stores and requests *)

Module Sample.

Definition cloud_env : ProcessEnv :=
  mkEnv (Some "s3cret") (Some "dream-house") (Some "key") (Some "secret").

Definition local_env : ProcessEnv := mkEnv (Some "s3cret") None None None.

(** A stand-in for bcrypt: the "hash" of [plain] is [plain] behind a
    prefix, so that no plaintext equals its own hash. *)
Definition toy_bcrypt (plain hash : string) : bool :=
  (hash =? ("$2a$10$" ++ plain)%string)%string.

(** A moment at which every Cloudinary deletion fails, and one at which
    they all succeed. *)
Definition outage : Outside := mkOutside 1000 (fun _ => false).
Definition fair_weather : Outside := mkOutside 1000 (fun _ => true).

Definition visitor_claims : Claims := mkClaims 7 (Some false) 0 (Some 86400).
Definition admin_claims : Claims := mkClaims 1 (Some true) 0 (Some 86400).

Definition bearer (c : Claims) : option (list word) :=
  Some [Text "Bearer"; Jws c "s3cret"].

Definition sofa : Product :=
  mkProduct 10 (Some "Sofa") (Some "Living room") None None
    (Some "https://res.cloudinary.com/dream-house/sofa.jpg")
    (Some "dream-house-products/sofa") (Some false).

Definition lamp : Product :=
  mkProduct 11 (Some "Lamp") (Some "Lighting") None (Some "Brass") None None (Some true).

Definition five : list Product :=
  [sofa; lamp;
   mkProduct 12 (Some "Desk") (Some "Office") None None None None (Some false);
   mkProduct 13 (Some "Rug") (Some "Living room") None None None None (Some false);
   mkProduct 14 (Some "Bed") (Some "Bedroom") None None None None (Some false)].

Definition root : User := mkUser 1 "root@dream.house" "$2a$10$hunter2" true.
Definition clerk : User := mkUser 2 "clerk@dream.house" "$2a$10$letmein" false.

Definition empty_store : State := mkState [root; clerk] [] 10 [].
Definition showroom : State := mkState [root; clerk] five 15 [].

(** A request with nothing in it, and the ones the examples send. *)
Definition request (auth : option (list word)) (id : param) (up : upload) : Request :=
  mkRequest auth id None (ByText "") None None None None None None up.

Definition create_request (auth : option (list word)) (name category : option string)
    (up : upload) : Request :=
  mkRequest auth (Malformed "") None (ByText "") None name category None None None up.

Definition login_request (e p : string) : Request :=
  mkRequest None (Malformed "") None (ByText e) (Some p) None None None None None NoFile.

Definition list_request (limit : option string) : Request :=
  mkRequest None (Malformed "") limit (ByText "") None None None None None None NoFile.

Definition patch_request (auth : option (list word)) (id : param) (b : bool) : Request :=
  mkRequest auth id None (ByText "") None None None None None (Some b) NoFile.

Definition photo : File := mkFile "https://res.cloudinary.com/dream-house/new.jpg" "dream-house-products/new".

(** A file as the disk storage leaves it when Cloudinary is not
    configured. *)
Definition snapshot : File :=
  mkFile "uploads/1700000000000-42.jpg" "1700000000000-42.jpg".

Definition chair (url key : option string) : Product :=
  mkProduct 10 (Some "Chair") (Some "Seats") None None url key (Some false).

(** The store after an admin has created a chair with [photo] on the
    cloud configuration. *)
Definition cloud_chair : Product :=
  chair (Some (path photo)) (Some (filename photo)).

Definition one_chair : State := mkState [root; clerk] [cloud_chair] 11 [Insert 10].

(** A visitor's and an admin's request to create a product, each with a
    file part that multer refuses; the admin's has no name. *)
Definition visitor_bad_upload : Request :=
  create_request (bearer visitor_claims) (Some "Chair") (Some "Seats")
    (UploadError "Unexpected field").

Definition nameless_bad_upload : Request :=
  create_request (bearer admin_claims) None (Some "Seats")
    (UploadError "Unexpected field").

(** A request to delete the sofa that carries no Authorization header. *)
Definition anonymous_delete : Request := request None (WellFormed 10) NoFile.

(** An admin creates a chair with [snapshot]; on the local configuration
    the chair is stored as [local_chair]. *)
Definition create_with_snapshot : Request :=
  create_request (bearer admin_claims) (Some "Chair") (Some "Seats") (Stored snapshot).

Definition local_chair : Product :=
  chair (Some "/uploads/1700000000000-42.jpg") None.

(** A day and a bit after [outage] and [fair_weather]. *)
Definition next_day : Outside := mkOutside 87400 (fun _ => true).

Definition put_request (auth : option (list word)) (id : param)
    (name category : option string) (up : upload) : Request :=
  mkRequest auth id None (ByText "") None name category None None None up.

(** A server started without a signing secret. *)
Definition no_secret_env : ProcessEnv :=
  mkEnv None (Some "dream-house") (Some "key") (Some "secret").

(** A login for [root] whose body has no password, and one whose email
    is the query [{"$ne": ""}]. *)
Definition login_without_password : Request :=
  mkRequest None (Malformed "") None (ByText "root@dream.house") None
    None None None None None NoFile.

Definition login_by_query (p : string) : Request :=
  mkRequest None (Malformed "") None (ByQuery (fun e => negb (e =? "")%string))
    (Some p) None None None None None NoFile.

End Sample.

(** * Properties *)

(** ** The monad and the routes *)

Ltac unfold_action :=
  unfold json, bind, ret, throw, try_catch, emit in *.

(** Case analysis on an innermost scrutinee of the goal. *)
Ltac case_split :=
  match goal with
  | |- context [match ?x with _ => _ end] =>
      lazymatch x with
      | context [match _ with _ => _ end] => fail
      | _ => destruct x eqn:?; simpl
      end
  end.

(** Every run of a route, case by case. *)
Ltac run_serve r :=
  destruct r;
  unfold serve, protected, uploading, uploadMiddleware,
    login_handler, create_handler, update_handler, delete_handler, list_handler,
    patch_handler, User_findOne,
    Product_findById, Product_findByIdAndUpdate, Product_findByIdAndDelete,
    Product_find, new_Product, save, destroy_old_image, cloudinary_destroy,
    castObjectId;
  unfold_action; simpl;
  repeat case_split;
  let H := fresh "Hrun" in
  intros H; inversion H; subst; clear H; simpl.

(** No exception leaves a route: every request is answered. *)
Lemma serve_responds env bcrypt_compare omitUndefined r o req st :
  exists res st', serve env bcrypt_compare omitUndefined r o req st = (Ok res, st').
Proof.
  destruct (serve env bcrypt_compare omitUndefined r o req st) as [[res|e] st'] eqn:Hserve;
    [exists res, st'; reflexivity|].
  exfalso. revert Hserve. run_serve r.
Qed.

Lemma verifyToken_status env o req res :
  verifyToken env o req = inl res -> status res = 403 \/ status res = 401.
Proof.
  unfold verifyToken.
  destruct (authorization req) as [token|].
  - destruct (jwt_verify _ _ _); intros H; inversion H; subst; simpl; auto.
  - intros H; inversion H; subst; simpl; auto.
Qed.

(** What it takes for [verifyToken] to let a request through: a second
    word in the header that is a token signed with the configured,
    non-empty secret, not yet expired. *)
Lemma verifyToken_accepts env o req user :
  verifyToken env o req = inr user <->
  exists token key,
    authorization req = Some token /\
    nth_error token 1 = Some (Jws user key) /\
    SECRET_KEY env = Some key /\ key <> "" /\
    match claim_exp user with Some e => clock o < e | None => True end.
Proof.
  unfold verifyToken, jwt_verify. split.
  - destruct (authorization req) as [token|]; [|discriminate].
    destruct (nth_error token 1) as [[s|payload key]|] eqn:Hword; try discriminate.
    + destruct (s =? "")%string; discriminate.
    + destruct (SECRET_KEY env) as [k|] eqn:Hk; [|discriminate].
      unfold truthy. destruct (k =? "")%string eqn:Hne; simpl; [discriminate|].
      destruct (key =? k)%string eqn:Hkey; simpl; [|discriminate].
      apply String.eqb_eq in Hkey. subst k. apply String.eqb_neq in Hne.
      intros H. exists token, key.
      destruct (claim_exp payload) as [e|] eqn:He.
      * destruct (e <=? clock o) eqn:Hle; [discriminate|].
        inversion H; subst. rewrite He. apply Z.leb_gt in Hle. auto.
      * inversion H; subst. rewrite He. auto.
  - intros (token & key & -> & -> & -> & Hne & Hexp).
    unfold truthy. apply String.eqb_neq in Hne. rewrite Hne. simpl.
    rewrite String.eqb_refl. simpl.
    destruct (claim_exp user) as [e|]; [|reflexivity].
    apply Z.leb_gt in Hexp. rewrite Hexp. reflexivity.
Qed.

(** ** Authorization *)

(** C1, as stated, fails: on the two routes that take an upload the role
    check sits in the handler, behind [uploadMiddleware], so a validly
    signed non-admin token whose upload fails is answered 500. *)
Lemma non_admin_token_can_meet_500 :
  (admin_only POST_products = true /\
   verifyToken Sample.cloud_env Sample.outage Sample.visitor_bad_upload
   = inr Sample.visitor_claims /\
   claim_isAdmin Sample.visitor_claims = Some false /\
   serve Sample.cloud_env Sample.toy_bcrypt false POST_products Sample.outage
     Sample.visitor_bad_upload Sample.empty_store
   = (Ok (mkResponse 500 (ErrorPage "Unexpected field")), Sample.empty_store)) /\
  ~ (forall env bcrypt_compare omitUndefined r o req st user res st',
        admin_only r = true ->
        verifyToken env o req = inr user ->
        claim_isAdmin user = Some false ->
        serve env bcrypt_compare omitUndefined r o req st = (Ok res, st') ->
        status res = 403).
Proof.
  split; [repeat split|].
  intros H.
  specialize (H Sample.cloud_env Sample.toy_bcrypt false POST_products Sample.outage
                Sample.visitor_bad_upload Sample.empty_store Sample.visitor_claims
                (mkResponse 500 (ErrorPage "Unexpected field")) Sample.empty_store
                eq_refl eq_refl eq_refl eq_refl).
  discriminate H.
Qed.

(** C1 (amended): a validly signed, unexpired token whose isAdmin claim
    is false (or missing) is answered 403 on every admin-only route,
    except on POST and PUT when the upload middleware fails first: then
    Express answers 500.  In no case is the status 401 or 404. *)
Theorem non_admin_token_status env bcrypt_compare omitUndefined r o req st user :
  admin_only r = true ->
  verifyToken env o req = inr user ->
  truthy_flag (claim_isAdmin user) = false ->
  fst (serve env bcrypt_compare omitUndefined r o req st) =
    Ok (if takes_upload r && upload_failed req
        then mkResponse 500
               (ErrorPage match multipart req with UploadError e => e | _ => "" end)
        else mkResponse 403 (Message "❌ Unauthorized. Admin access required.")).
Proof.
  intros Hr Hv Hflag.
  destruct r; try discriminate Hr; unfold serve, protected; rewrite Hv;
    unfold uploading, uploadMiddleware, upload_failed; simpl;
    try (destruct (multipart req); simpl);
    unfold create_handler, update_handler, delete_handler, patch_handler;
    unfold_action; try rewrite Hflag; reflexivity.
Qed.

Lemma non_admin_token_status_witness :
  admin_only DELETE_products = true /\
  verifyToken Sample.cloud_env Sample.outage
    (Sample.request (Sample.bearer Sample.visitor_claims) (WellFormed 10) NoFile)
    = inr Sample.visitor_claims /\
  truthy_flag (claim_isAdmin Sample.visitor_claims) = false /\
  fst (serve Sample.cloud_env Sample.toy_bcrypt false DELETE_products Sample.outage
         (Sample.request (Sample.bearer Sample.visitor_claims) (WellFormed 10) NoFile)
         Sample.showroom)
  = Ok (mkResponse 403 (Message "❌ Unauthorized. Admin access required.")).
Proof.
  do 3 (split; [reflexivity|]).
  apply (non_admin_token_status Sample.cloud_env Sample.toy_bcrypt false DELETE_products
           Sample.outage
           (Sample.request (Sample.bearer Sample.visitor_claims) (WellFormed 10) NoFile)
           Sample.showroom Sample.visitor_claims); reflexivity.
Defined.

(** C2, as stated, fails: a protected route answers a request without
    an Authorization header with 403, the status it also uses for an
    insufficient role, not with a 401. *)
Lemma missing_header_is_not_401 :
  (admin_only DELETE_products = true /\
   authorization Sample.anonymous_delete = None /\
   serve Sample.cloud_env Sample.toy_bcrypt false DELETE_products Sample.outage
     Sample.anonymous_delete Sample.showroom
   = (Ok (mkResponse 403 (Message "❌ Access Denied. No token provided.")),
      Sample.showroom)) /\
  ~ (forall env bcrypt_compare omitUndefined r o req st res st',
        admin_only r = true ->
        authorization req = None ->
        serve env bcrypt_compare omitUndefined r o req st = (Ok res, st') ->
        status res = 401).
Proof.
  split; [repeat split|].
  intros H.
  specialize (H Sample.cloud_env Sample.toy_bcrypt false DELETE_products Sample.outage
                Sample.anonymous_delete Sample.showroom
                (mkResponse 403 (Message "❌ Access Denied. No token provided."))
                Sample.showroom eq_refl eq_refl eq_refl).
  discriminate H.
Qed.

(** C2 (amended): on every protected route a request whose Authorization
    header is missing or empty is refused with status 403 and a
    no-token message, and a request whose header has no second word
    (a scheme without a token) is refused with status 401; neither
    touches the state. *)
Theorem no_credential_status env bcrypt_compare omitUndefined r o req st :
  admin_only r = true ->
  (authorization req = None ->
   serve env bcrypt_compare omitUndefined r o req st =
     (Ok (mkResponse 403 (Message "❌ Access Denied. No token provided.")), st)) /\
  (forall token,
     authorization req = Some token -> nth_error token 1 = None ->
     serve env bcrypt_compare omitUndefined r o req st =
       (Ok (mkResponse 401 (Message "❌ Invalid or Expired Token")), st)).
Proof.
  intros Hr. split.
  - intros Hnone.
    destruct r; try discriminate Hr; unfold serve, protected, verifyToken;
      rewrite Hnone; reflexivity.
  - intros token Hsome Hword.
    destruct r; try discriminate Hr; unfold serve, protected, verifyToken;
      rewrite Hsome, Hword; reflexivity.
Qed.

Lemma no_credential_status_witness :
  admin_only PATCH_products = true /\
  serve Sample.local_env Sample.toy_bcrypt true PATCH_products Sample.fair_weather
    (Sample.patch_request None (WellFormed 10) true) Sample.showroom
  = (Ok (mkResponse 403 (Message "❌ Access Denied. No token provided.")),
     Sample.showroom) /\
  serve Sample.local_env Sample.toy_bcrypt true PATCH_products Sample.fair_weather
    (Sample.patch_request (Some [Text "Bearer"]) (WellFormed 10) true) Sample.showroom
  = (Ok (mkResponse 401 (Message "❌ Invalid or Expired Token")), Sample.showroom).
Proof.
  split; [reflexivity|]. split.
  - apply (no_credential_status Sample.local_env Sample.toy_bcrypt true PATCH_products
             Sample.fair_weather (Sample.patch_request None (WellFormed 10) true)
             Sample.showroom eq_refl); reflexivity.
  - apply (no_credential_status Sample.local_env Sample.toy_bcrypt true PATCH_products
             Sample.fair_weather
             (Sample.patch_request (Some [Text "Bearer"]) (WellFormed 10) true)
             Sample.showroom eq_refl) with (token := [Text "Bearer"]); reflexivity.
Defined.

(** ** Login *)

Lemma findOne_none (e : string) (us : list User) :
  (forall u, In u us -> email u <> e) ->
  find (selected (ByText e)) us = None.
Proof.
  induction us as [|u us IH]; intros Hno; [reflexivity|].
  simpl. destruct (email u =? e)%string eqn:Heq.
  - apply String.eqb_eq in Heq. exfalso. apply (Hno u); [left; reflexivity|exact Heq].
  - apply IH. intros v Hv. apply Hno. right. exact Hv.
Qed.

Lemma login_not_found env bcrypt_compare omitUndefined o req st :
  find (selected (body_email req)) (users st) = None ->
  serve env bcrypt_compare omitUndefined POST_login o req st =
    (Ok (mkResponse 400 (Message "❌ Admin not found.")), st).
Proof.
  intros Hnone. unfold serve, login_handler, User_findOne. unfold_action.
  rewrite Hnone. reflexivity.
Qed.

(** What the login handler answers once [findOne] has returned an
    account: without a string for a password bcrypt.compare rejects and
    the catch answers 500; with one, bcrypt's verdict decides, and
    nothing else is asked about the password. *)
Lemma login_found env bcrypt_compare omitUndefined o req st admin :
  find (selected (body_email req)) (users st) = Some admin ->
  serve env bcrypt_compare omitUndefined POST_login o req st =
    match body_password req with
    | Some plain =>
        if bcrypt_compare plain (password admin)
        then match jwt_sign (user_id admin) (Some true) (SECRET_KEY env) (clock o)
                     86400 with
             | Ok token => (Ok (mkResponse 200 (TokenUser token admin)), st)
             | Thrown _ => (Ok (mkResponse 500 (Message "❌ Internal Server Error")), st)
             end
        else (Ok (mkResponse 400 (Message "❌ Incorrect password.")), st)
    | None => (Ok (mkResponse 500 (Message "❌ Internal Server Error")), st)
    end.
Proof.
  intros Hfind. unfold serve, login_handler, User_findOne. unfold_action.
  rewrite Hfind. destruct (body_password req) as [plain|]; [|reflexivity].
  destruct (bcrypt_compare plain (password admin)); simpl; [|reflexivity].
  destruct (jwt_sign _ _ _ _ _); reflexivity.
Qed.

(** C3, as stated, fails: a login for a stored account whose body has no
    password (so none that matches the stored hash) is answered 500,
    since bcrypt.compare rejects what is not a string and the handler's
    catch takes it up. *)
Lemma login_without_password_is_500 :
  (find (selected (body_email Sample.login_without_password))
     (users Sample.empty_store) = Some Sample.root /\
   body_password Sample.login_without_password = None /\
   serve Sample.cloud_env Sample.toy_bcrypt false POST_login Sample.outage
     Sample.login_without_password Sample.empty_store
   = (Ok (mkResponse 500 (Message "❌ Internal Server Error")), Sample.empty_store)) /\
  ~ (forall env bcrypt_compare omitUndefined o req st admin res st',
        find (selected (body_email req)) (users st) = Some admin ->
        (forall plain, body_password req = Some plain ->
           bcrypt_compare plain (password admin) = false) ->
        serve env bcrypt_compare omitUndefined POST_login o req st = (Ok res, st') ->
        status res = 400).
Proof.
  split; [repeat split|].
  intros H.
  specialize (H Sample.cloud_env Sample.toy_bcrypt false Sample.outage
                Sample.login_without_password Sample.empty_store Sample.root
                (mkResponse 500 (Message "❌ Internal Server Error"))
                Sample.empty_store eq_refl).
  assert (Hstatus : status (mkResponse 500 (Message "❌ Internal Server Error")) = 400).
  { apply H; [intros plain Hplain; discriminate Hplain|reflexivity]. }
  discriminate Hstatus.
Qed.

(** C3 (amended): a login whose email selects no stored account (a
    string that no account has, or a query that no stored address
    satisfies) is answered 400 "Admin not found.".  A login whose email
    selects an account and whose password is a string that
    bcrypt.compare rejects is answered 400 "Incorrect password.", also
    when the password sent equals the stored value character for
    character; when bcrypt.compare accepts the string the answer is not
    a 400, also when the two strings differ: the handler never asks
    whether the plaintext and the stored value are the same string.
    When an account is selected and the body carries no string for a
    password, the answer is 500. *)
Theorem login_failures env bcrypt_compare omitUndefined o req st :
  (find (selected (body_email req)) (users st) = None ->
   serve env bcrypt_compare omitUndefined POST_login o req st =
     (Ok (mkResponse 400 (Message "❌ Admin not found.")), st)) /\
  (forall e, body_email req = ByText e ->
     (forall u, In u (users st) -> email u <> e) ->
     serve env bcrypt_compare omitUndefined POST_login o req st =
       (Ok (mkResponse 400 (Message "❌ Admin not found.")), st)) /\
  (forall admin plain,
     find (selected (body_email req)) (users st) = Some admin ->
     body_password req = Some plain ->
     bcrypt_compare plain (password admin) = false ->
     serve env bcrypt_compare omitUndefined POST_login o req st =
       (Ok (mkResponse 400 (Message "❌ Incorrect password.")), st)) /\
  (forall admin plain res st',
     find (selected (body_email req)) (users st) = Some admin ->
     body_password req = Some plain ->
     bcrypt_compare plain (password admin) = true ->
     serve env bcrypt_compare omitUndefined POST_login o req st = (Ok res, st') ->
     status res <> 400) /\
  (forall admin,
     find (selected (body_email req)) (users st) = Some admin ->
     body_password req = None ->
     serve env bcrypt_compare omitUndefined POST_login o req st =
       (Ok (mkResponse 500 (Message "❌ Internal Server Error")), st)).
Proof.
  split; [|split; [|split; [|split]]].
  - apply login_not_found.
  - intros e He Hno. apply login_not_found. rewrite He. apply findOne_none. exact Hno.
  - intros admin plain Hfind Hplain Hcmp.
    rewrite (login_found _ _ _ _ _ _ _ Hfind), Hplain, Hcmp. reflexivity.
  - intros admin plain res st' Hfind Hplain Hcmp.
    rewrite (login_found _ _ _ _ _ _ _ Hfind), Hplain, Hcmp.
    destruct (jwt_sign _ _ _ _ _); intros H; inversion H; subst; simpl; discriminate.
  - intros admin Hfind Hplain.
    rewrite (login_found _ _ _ _ _ _ _ Hfind), Hplain. reflexivity.
Qed.

Lemma login_failures_witness :
  (* nobody has this address *)
  serve Sample.cloud_env Sample.toy_bcrypt false POST_login Sample.outage
    (Sample.login_request "nobody@dream.house" "hunter2") Sample.empty_store
  = (Ok (mkResponse 400 (Message "❌ Admin not found.")), Sample.empty_store) /\
  (* the stored value itself, sent as the password *)
  serve Sample.cloud_env Sample.toy_bcrypt false POST_login Sample.outage
    (Sample.login_request "root@dream.house" "$2a$10$hunter2") Sample.empty_store
  = (Ok (mkResponse 400 (Message "❌ Incorrect password.")), Sample.empty_store) /\
  (* a query for an email: the first account is selected, its password asked *)
  serve Sample.cloud_env Sample.toy_bcrypt false POST_login Sample.outage
    (Sample.login_by_query "letmein") Sample.empty_store
  = (Ok (mkResponse 400 (Message "❌ Incorrect password.")), Sample.empty_store) /\
  (* no password *)
  serve Sample.cloud_env Sample.toy_bcrypt false POST_login Sample.outage
    Sample.login_without_password Sample.empty_store
  = (Ok (mkResponse 500 (Message "❌ Internal Server Error")), Sample.empty_store).
Proof.
  split; [|split; [|split]].
  - apply (login_failures Sample.cloud_env Sample.toy_bcrypt false Sample.outage
             (Sample.login_request "nobody@dream.house" "hunter2") Sample.empty_store)
      with (e := "nobody@dream.house"); [reflexivity|].
    intros u [<-|[<-|[]]]; discriminate.
  - apply (login_failures Sample.cloud_env Sample.toy_bcrypt false Sample.outage
             (Sample.login_request "root@dream.house" "$2a$10$hunter2")
             Sample.empty_store) with (admin := Sample.root)
                                      (plain := "$2a$10$hunter2"); reflexivity.
  - apply (login_failures Sample.cloud_env Sample.toy_bcrypt false Sample.outage
             (Sample.login_by_query "letmein") Sample.empty_store)
      with (admin := Sample.root) (plain := "letmein"); reflexivity.
  - apply (login_failures Sample.cloud_env Sample.toy_bcrypt false Sample.outage
             Sample.login_without_password Sample.empty_store)
      with (admin := Sample.root); reflexivity.
Defined.

(** A token whose isAdmin claim is true is never answered 403: what it
    gets on an admin-only route is decided by the rest of the handler. *)
Lemma admin_claim_passes_role_check env bcrypt_compare omitUndefined r o req st user res st' :
  admin_only r = true ->
  verifyToken env o req = inr user ->
  truthy_flag (claim_isAdmin user) = true ->
  serve env bcrypt_compare omitUndefined r o req st = (Ok res, st') ->
  status res <> 403.
Proof.
  intros Hr Hv Hflag.
  destruct r; try discriminate Hr; unfold serve, protected; rewrite Hv;
    unfold uploading, uploadMiddleware,
      create_handler, update_handler, delete_handler, patch_handler,
      Product_findById, Product_findByIdAndUpdate, Product_findByIdAndDelete,
      new_Product, save, destroy_old_image, cloudinary_destroy, castObjectId;
    unfold_action; rewrite ?Hflag; simpl;
    repeat case_split;
    intros H; inversion H; subst; simpl; discriminate.
Qed.

(** C9: whenever a login succeeds, the token it returns carries
    [isAdmin: true], written as a constant: the claim is read neither
    from the request nor from the isAdmin flag of the stored account,
    which may be false.  The token is signed with the configured secret
    and expires a day later; presented before that on any admin-only
    route it passes verifyToken, its isAdmin claim is truthy and the
    answer is never the 403 of the role check. *)
Theorem login_always_claims_admin env bcrypt_compare omitUndefined o req st res st' :
  serve env bcrypt_compare omitUndefined POST_login o req st = (Ok res, st') ->
  status res = 200 ->
  exists admin key,
    find (selected (body_email req)) (users st) = Some admin /\
    SECRET_KEY env = Some key /\
    body res =
      TokenUser (Jws (mkClaims (user_id admin) (Some true) (clock o)
                        (Some (clock o + 86400))) key) admin /\
    forall o' req' words,
      authorization req' = Some words ->
      nth_error words 1 =
        Some (Jws (mkClaims (user_id admin) (Some true) (clock o)
                     (Some (clock o + 86400))) key) ->
      clock o' < clock o + 86400 ->
      exists user,
        verifyToken env o' req' = inr user /\
        truthy_flag (claim_isAdmin user) = true /\
        forall r st1 res1 st1',
          admin_only r = true ->
          serve env bcrypt_compare omitUndefined r o' req' st1 = (Ok res1, st1') ->
          status res1 <> 403.
Proof.
  intros Hserve Hstatus.
  destruct (find (selected (body_email req)) (users st))
    as [admin|] eqn:Hfind.
  - rewrite (login_found _ _ _ _ _ _ _ Hfind) in Hserve.
    destruct (body_password req) as [plain|];
      [|inversion Hserve; subst; discriminate Hstatus].
    destruct (bcrypt_compare plain (password admin));
      [|inversion Hserve; subst; discriminate Hstatus].
    unfold jwt_sign in Hserve.
    destruct (SECRET_KEY env) as [key|] eqn:Hkey;
      [|inversion Hserve; subst; discriminate Hstatus].
    destruct (truthy (Some key)) eqn:Htruthy;
      [|inversion Hserve; subst; discriminate Hstatus].
    inversion Hserve; subst. exists admin, key. repeat split.
    intros o' req' words Hauth Hword Hclock.
    assert (Hv : verifyToken env o' req' =
                 inr (mkClaims (user_id admin) (Some true) (clock o)
                        (Some (clock o + 86400)))).
    { apply verifyToken_accepts. exists words, key. repeat split; auto.
      unfold truthy in Htruthy. intros ->. discriminate Htruthy. }
    eexists. split; [exact Hv|]. split; [reflexivity|].
    intros r st1 res1 st1' Hr Hs.
    exact (admin_claim_passes_role_check _ _ _ _ _ _ _ _ _ _ Hr Hv eq_refl Hs).
  - unfold serve, login_handler, User_findOne in Hserve. unfold_action.
    rewrite Hfind in Hserve. inversion Hserve; subst. discriminate Hstatus.
Qed.

Lemma login_always_claims_admin_witness :
  isAdmin Sample.clerk = false /\
  exists admin key,
    find (selected (ByText "clerk@dream.house")) (users Sample.empty_store)
      = Some admin /\
    SECRET_KEY Sample.cloud_env = Some key /\
    TokenUser (Jws (mkClaims 2 (Some true) 1000 (Some 87400)) "s3cret") Sample.clerk =
      TokenUser (Jws (mkClaims (user_id admin) (Some true) 1000 (Some (1000 + 86400))) key)
        admin.
Proof.
  split; [reflexivity|].
  destruct (login_always_claims_admin Sample.cloud_env Sample.toy_bcrypt false
              Sample.outage (Sample.login_request "clerk@dream.house" "letmein")
              Sample.empty_store
              (mkResponse 200
                 (TokenUser (Jws (mkClaims 2 (Some true) 1000 (Some 87400)) "s3cret")
                    Sample.clerk))
              Sample.empty_store eq_refl eq_refl)
    as (admin & key & Hfind & Hkey & Hbody & _).
  exists admin, key. auto.
Defined.

(** ** Creating a product *)

(** C4, as stated, fails: the fields are only looked at once the upload
    middleware has passed the request on, so an admin's request without
    a name whose upload fails is answered 500, not 400. *)
Lemma nameless_product_can_meet_500 :
  (verifyToken Sample.local_env Sample.outage Sample.nameless_bad_upload
   = inr Sample.admin_claims /\
   truthy_flag (claim_isAdmin Sample.admin_claims) = true /\
   truthy (body_name Sample.nameless_bad_upload) = false /\
   serve Sample.local_env Sample.toy_bcrypt false POST_products Sample.outage
     Sample.nameless_bad_upload Sample.empty_store
   = (Ok (mkResponse 500 (ErrorPage "Unexpected field")), Sample.empty_store)) /\
  ~ (forall env bcrypt_compare omitUndefined o req st user res st',
        verifyToken env o req = inr user ->
        truthy_flag (claim_isAdmin user) = true ->
        truthy (body_name req) && truthy (body_category req) = false ->
        serve env bcrypt_compare omitUndefined POST_products o req st = (Ok res, st') ->
        status res = 400 /\ products st' = products st).
Proof.
  split; [repeat split|].
  intros H.
  destruct (H Sample.local_env Sample.toy_bcrypt false Sample.outage
              Sample.nameless_bad_upload Sample.empty_store Sample.admin_claims
              (mkResponse 500 (ErrorPage "Unexpected field")) Sample.empty_store
              eq_refl eq_refl eq_refl eq_refl) as [Hstatus _].
  discriminate Hstatus.
Qed.

Lemma fresh_id_unused st :
  well_formed st -> forall q, In q (products st) -> _id q <> next_id st.
Proof.
  intros [_ Hlt] q Hq. rewrite Forall_forall in Hlt.
  specialize (Hlt q Hq). lia.
Qed.

(** C4 (amended): for a product-creation request by an authenticated
    admin that the upload middleware passes on to the handler (with no
    file or with a stored file): when name or category is missing or
    empty the answer is 400 and the state is unchanged; when both are
    non-empty the answer is 201 with the created record, which carries a
    new id and featured false, and the collection is the old one with
    that record appended.  When the upload middleware fails the answer
    is its 500 and the state is unchanged. *)
Theorem create_validates_then_persists env bcrypt_compare omitUndefined o req st user :
  verifyToken env o req = inr user ->
  truthy_flag (claim_isAdmin user) = true ->
  serve env bcrypt_compare omitUndefined POST_products o req st =
    match uploadMiddleware req with
    | inl res => (Ok res, st)
    | inr file =>
        if truthy (body_name req) && truthy (body_category req)
        then
          let created :=
            mkProduct (next_id st) (body_name req) (body_category req)
              (body_subCategory req) (body_description req)
              (fst (image_fields env file None None))
              (snd (image_fields env file None None)) (Some false) in
          (Ok (mkResponse 201 (MessageProduct "✅ Product added successfully" created)),
           mkState (users st) (products st ++ [created]) (N.succ (next_id st))
             (log st ++ [Insert (next_id st)]))
        else (Ok (mkResponse 400 (Message "⚠️ Missing required fields.")), st)
    end /\
  (well_formed st -> forall q, In q (products st) -> _id q <> next_id st).
Proof.
  intros Hv Hflag. split; [|apply fresh_id_unused].
  unfold serve, protected, uploading. rewrite Hv.
  destruct (uploadMiddleware req) as [res|file]; [reflexivity|].
  unfold create_handler, new_Product, save. unfold_action. rewrite Hflag. simpl.
  destruct (truthy (body_name req)) eqn:Hname; simpl; [|reflexivity].
  destruct (truthy (body_category req)) eqn:Hcat; simpl; [|reflexivity].
  destruct (image_fields env file None None) as [url key]. simpl.
  reflexivity.
Qed.

Lemma create_validates_then_persists_witness :
  (* no category: refused, nothing stored *)
  serve Sample.cloud_env Sample.toy_bcrypt false POST_products Sample.outage
    (Sample.create_request (Sample.bearer Sample.admin_claims) (Some "Chair") (Some "")
       (Stored Sample.photo)) Sample.empty_store
  = (Ok (mkResponse 400 (Message "⚠️ Missing required fields.")), Sample.empty_store) /\
  (* name and category: stored under the next id, not featured *)
  serve Sample.cloud_env Sample.toy_bcrypt false POST_products Sample.outage
    (Sample.create_request (Sample.bearer Sample.admin_claims) (Some "Chair")
       (Some "Seats") NoFile) Sample.empty_store
  = (Ok (mkResponse 201
           (MessageProduct "✅ Product added successfully"
              (mkProduct 10 (Some "Chair") (Some "Seats") None None None None
                 (Some false)))),
     mkState [Sample.root; Sample.clerk]
       [mkProduct 10 (Some "Chair") (Some "Seats") None None None None (Some false)]
       11 [Insert 10]).
Proof.
  split.
  - apply (create_validates_then_persists Sample.cloud_env Sample.toy_bcrypt false
             Sample.outage
             (Sample.create_request (Sample.bearer Sample.admin_claims) (Some "Chair")
                (Some "") (Stored Sample.photo))
             Sample.empty_store Sample.admin_claims eq_refl eq_refl).
  - apply (create_validates_then_persists Sample.cloud_env Sample.toy_bcrypt false
             Sample.outage
             (Sample.create_request (Sample.bearer Sample.admin_claims) (Some "Chair")
                (Some "Seats") NoFile)
             Sample.empty_store Sample.admin_claims eq_refl eq_refl).
Defined.

(** ** Deleting a product *)

Lemma find_has_id_none (i : ObjectId) (ps : list Product) :
  ~ In i (map _id ps) -> find (has_id i) ps = None.
Proof.
  induction ps as [|q ps IH]; intros Hnot; [reflexivity|].
  simpl. unfold has_id at 1. destruct (_id q =? i)%N eqn:Heq.
  - apply N.eqb_eq in Heq. exfalso. apply Hnot. left. exact Heq.
  - apply IH. intros Hin. apply Hnot. right. exact Hin.
Qed.

Lemma find_remove_first (i : ObjectId) (ps : list Product) :
  NoDup (map _id ps) -> find (has_id i) (remove_first i ps) = None.
Proof.
  induction ps as [|q ps IH]; intros Hnd; [reflexivity|].
  simpl in Hnd. inversion Hnd as [|x l Hnotin Hnd']; subst.
  simpl. destruct (has_id i q) eqn:Hq.
  - unfold has_id in Hq. apply N.eqb_eq in Hq. subst i.
    apply find_has_id_none. exact Hnotin.
  - simpl. rewrite Hq. apply IH. exact Hnd'.
Qed.

(** The DELETE route for an admin and an existing product: the outcome
    of the deletion call does not show in the result. *)
Lemma delete_by_admin env bcrypt_compare omitUndefined o req st user i p :
  verifyToken env o req = inr user ->
  truthy_flag (claim_isAdmin user) = true ->
  params_id req = WellFormed i ->
  find (has_id i) (products st) = Some p ->
  serve env bcrypt_compare omitUndefined DELETE_products o req st =
    (Ok (mkResponse 200 (Message "✅ Product deleted successfully.")),
     mkState (users st) (remove_first i (products st)) (next_id st)
       (log st ++ destroy_calls env p ++ [Remove i])).
Proof.
  intros Hv Hflag Hid Hfind.
  unfold serve, protected. rewrite Hv.
  unfold delete_handler, Product_findById, Product_findByIdAndDelete,
    destroy_old_image, cloudinary_destroy, castObjectId, destroy_calls.
  unfold_action. rewrite Hflag, Hid. simpl. rewrite Hfind.
  destruct (cloudinaryId p) as [key|]; simpl.
  - destruct (isCloudinaryConfigured env); simpl; [|reflexivity].
    destruct (key =? "")%string; simpl; [reflexivity|].
    destruct (destroy_resolves o key); simpl; rewrite <- app_assoc; reflexivity.
  - rewrite andb_false_r. reflexivity.
Qed.

(** C5: deleting an existing product as an admin, whatever the media
    backend does with the deletion call (the oracle in [o]).  When the
    cloud backend is configured and the product has a (non-empty)
    deletion key, the calls the request adds to the log are exactly one
    [Destroy] with that key followed by the removal of the record; when
    the product has no key the removal is the only call.  In both cases
    the answer is the 200 confirmation, the record is taken out of the
    collection, and the id finds no document afterwards. *)
Theorem delete_calls_backend_once_then_removes env bcrypt_compare omitUndefined o req st
    user i p :
  verifyToken env o req = inr user ->
  truthy_flag (claim_isAdmin user) = true ->
  params_id req = WellFormed i ->
  find (has_id i) (products st) = Some p ->
  (forall key,
     isCloudinaryConfigured env = true -> cloudinaryId p = Some key -> key <> "" ->
     serve env bcrypt_compare omitUndefined DELETE_products o req st =
       (Ok (mkResponse 200 (Message "✅ Product deleted successfully.")),
        mkState (users st) (remove_first i (products st)) (next_id st)
          (log st ++ [Destroy key; Remove i]))) /\
  (cloudinaryId p = None ->
   serve env bcrypt_compare omitUndefined DELETE_products o req st =
     (Ok (mkResponse 200 (Message "✅ Product deleted successfully.")),
      mkState (users st) (remove_first i (products st)) (next_id st)
        (log st ++ [Remove i]))) /\
  (well_formed st -> find (has_id i) (remove_first i (products st)) = None).
Proof.
  intros Hv Hflag Hid Hfind. split; [|split].
  - intros key Hcloud Hkey Hne.
    rewrite (delete_by_admin _ _ _ _ _ _ _ _ _ Hv Hflag Hid Hfind).
    unfold destroy_calls. rewrite Hkey, Hcloud.
    apply String.eqb_neq in Hne. rewrite Hne. reflexivity.
  - intros Hkey.
    rewrite (delete_by_admin _ _ _ _ _ _ _ _ _ Hv Hflag Hid Hfind).
    unfold destroy_calls. rewrite Hkey. reflexivity.
  - intros [Hnd _]. apply find_remove_first. exact Hnd.
Qed.

Lemma delete_calls_backend_once_then_removes_witness :
  (* Cloudinary is down: the sofa goes all the same, after one call *)
  serve Sample.cloud_env Sample.toy_bcrypt false DELETE_products Sample.outage
    (Sample.request (Sample.bearer Sample.admin_claims) (WellFormed 10) NoFile)
    Sample.showroom
  = (Ok (mkResponse 200 (Message "✅ Product deleted successfully.")),
     mkState [Sample.root; Sample.clerk] (tl Sample.five) 15
       [Destroy "dream-house-products/sofa"; Remove 10]) /\
  (* the lamp has no image: nothing is asked of Cloudinary *)
  serve Sample.cloud_env Sample.toy_bcrypt false DELETE_products Sample.outage
    (Sample.request (Sample.bearer Sample.admin_claims) (WellFormed 11) NoFile)
    Sample.showroom
  = (Ok (mkResponse 200 (Message "✅ Product deleted successfully.")),
     mkState [Sample.root; Sample.clerk] (Sample.sofa :: tl (tl Sample.five)) 15
       [Remove 11]) /\
  find (has_id 10) (tl Sample.five) = None.
Proof.
  destruct (delete_calls_backend_once_then_removes Sample.cloud_env Sample.toy_bcrypt
              false Sample.outage
              (Sample.request (Sample.bearer Sample.admin_claims) (WellFormed 10) NoFile)
              Sample.showroom Sample.admin_claims 10%N Sample.sofa
              eq_refl eq_refl eq_refl eq_refl)
    as (Hkey & _ & Hgone).
  destruct (delete_calls_backend_once_then_removes Sample.cloud_env Sample.toy_bcrypt
              false Sample.outage
              (Sample.request (Sample.bearer Sample.admin_claims) (WellFormed 11) NoFile)
              Sample.showroom Sample.admin_claims 11%N Sample.lamp
              eq_refl eq_refl eq_refl eq_refl)
    as (_ & Hnokey & _).
  split; [|split].
  - apply (Hkey "dream-house-products/sofa" eq_refl eq_refl). discriminate.
  - apply Hnokey. reflexivity.
  - apply Hgone. split.
    + repeat constructor; simpl; intuition discriminate.
    + repeat constructor.
Defined.

(** ** Toggling the featured flag *)

Lemma find_has_id (i : ObjectId) (ps : list Product) (p : Product) :
  find (has_id i) ps = Some p -> _id p = i.
Proof.
  intros H. apply find_some in H. destruct H as [_ H].
  unfold has_id in H. apply N.eqb_eq in H. exact H.
Qed.

(** The first document with id [i] splits the collection, and an update
    by id rewrites that document where it stands. *)
Lemma replace_first_split (i : ObjectId) (f : Product -> Product) (ps : list Product)
    (p : Product) :
  find (has_id i) ps = Some p ->
  exists before after : list Product,
    ps = before ++ p :: after /\
    find (has_id i) before = None /\
    replace_first i f ps = before ++ f p :: after.
Proof.
  induction ps as [|q ps IH]; intros Hfind; [discriminate|].
  simpl in Hfind. simpl. destruct (has_id i q) eqn:Hq.
  - inversion Hfind; subst. exists [], ps. repeat split.
  - destruct (IH Hfind) as (before & after & Hps & Hnone & Hrep).
    exists (q :: before), after. simpl. rewrite Hq.
    split; [f_equal; exact Hps|]. split; [exact Hnone|f_equal; exact Hrep].
Qed.

Lemma find_past_prefix (i : ObjectId) (before after : list Product) (p : Product) :
  find (has_id i) before = None -> _id p = i ->
  find (has_id i) (before ++ p :: after) = Some p.
Proof.
  intros Hnone Hid. induction before as [|q before IH]; simpl.
  - unfold has_id. rewrite Hid, N.eqb_refl. reflexivity.
  - simpl in Hnone. destruct (has_id i q); [discriminate|]. apply IH. exact Hnone.
Qed.


(** The PATCH handler for an admin and a well-formed id. *)
Lemma patch_by_admin env bcrypt_compare omitUndefined o req st user i :
  verifyToken env o req = inr user ->
  truthy_flag (claim_isAdmin user) = true ->
  params_id req = WellFormed i ->
  serve env bcrypt_compare omitUndefined PATCH_products o req st =
    (Ok (mkResponse 200
           (Doc (option_map (patch_update omitUndefined req)
                   (find (has_id i) (products st))))),
     mkState (users st) (replace_first i (patch_update omitUndefined req) (products st))
       (next_id st) (log st ++ [Update i])).
Proof.
  intros Hv Hflag Hid. unfold serve, protected. rewrite Hv.
  unfold patch_handler, Product_findByIdAndUpdate, castObjectId. unfold_action.
  rewrite Hflag, Hid. reflexivity.
Qed.



(** ** Toggling a product that is not there *)

Lemma replace_first_absent (i : ObjectId) (f : Product -> Product) (ps : list Product) :
  find (has_id i) ps = None -> replace_first i f ps = ps.
Proof.
  induction ps as [|q ps IH]; intros Hnone; [reflexivity|].
  simpl in *. destruct (has_id i q); [discriminate|]. rewrite IH; auto.
Qed.

(** C10: for an admin and a well-formed id that no product has, PATCH
    answers 200 with [null] for a body (the collection is as before),
    where DELETE answers 404 and PUT, once the upload middleware has
    passed the request on, answers 404 too: the check that sends them
    there is not in the PATCH handler. *)
Theorem toggle_of_missing_product_is_200_null env bcrypt_compare omitUndefined o req st
    user i :
  verifyToken env o req = inr user ->
  truthy_flag (claim_isAdmin user) = true ->
  params_id req = WellFormed i ->
  find (has_id i) (products st) = None ->
  serve env bcrypt_compare omitUndefined PATCH_products o req st =
    (Ok (mkResponse 200 (Doc None)),
     mkState (users st) (products st) (next_id st) (log st ++ [Update i])) /\
  serve env bcrypt_compare omitUndefined DELETE_products o req st =
    (Ok (mkResponse 404 (Message "❌ Product not found")), st) /\
  serve env bcrypt_compare omitUndefined PUT_products o req st =
    match uploadMiddleware req with
    | inl res => (Ok res, st)
    | inr _ => (Ok (mkResponse 404 (Message "❌ Product not found")), st)
    end.
Proof.
  intros Hv Hflag Hid Hnone. split; [|split].
  - rewrite (patch_by_admin _ _ _ _ _ _ _ _ Hv Hflag Hid), Hnone.
    rewrite (replace_first_absent _ _ _ Hnone). reflexivity.
  - unfold serve, protected. rewrite Hv.
    unfold delete_handler, Product_findById, castObjectId. unfold_action.
    rewrite Hflag, Hid. simpl. rewrite Hnone. reflexivity.
  - unfold serve, protected, uploading. rewrite Hv.
    destruct (uploadMiddleware req) as [res|file]; [reflexivity|].
    unfold update_handler, Product_findById, castObjectId. unfold_action.
    rewrite Hflag, Hid. simpl. rewrite Hnone. reflexivity.
Qed.

Lemma toggle_of_missing_product_is_200_null_witness :
  serve Sample.cloud_env Sample.toy_bcrypt false PATCH_products Sample.outage
    (Sample.patch_request (Sample.bearer Sample.admin_claims) (WellFormed 99) true)
    Sample.showroom
  = (Ok (mkResponse 200 (Doc None)),
     mkState [Sample.root; Sample.clerk] Sample.five 15 [Update 99]) /\
  serve Sample.cloud_env Sample.toy_bcrypt false DELETE_products Sample.outage
    (Sample.patch_request (Sample.bearer Sample.admin_claims) (WellFormed 99) true)
    Sample.showroom
  = (Ok (mkResponse 404 (Message "❌ Product not found")), Sample.showroom).
Proof.
  destruct (toggle_of_missing_product_is_200_null Sample.cloud_env Sample.toy_bcrypt
              false Sample.outage
              (Sample.patch_request (Sample.bearer Sample.admin_claims) (WellFormed 99)
                 true)
              Sample.showroom Sample.admin_claims 99%N eq_refl eq_refl eq_refl eq_refl)
    as (Hpatch & Hdelete & _).
  split; [exact Hpatch|exact Hdelete].
Defined.

(** ** Listing products *)

Lemma string_append_assoc (a b c : string) :
  ((a ++ b) ++ c = a ++ (b ++ c))%string.
Proof. induction a as [|x a IH]; simpl; [reflexivity|rewrite IH; reflexivity]. Qed.

Example parseInt_behind_white_space :
  parseInt (utf8 [32; 194; 160; 226; 128; 168]%nat ++ "2") = Some 2.
Proof. reflexivity. Qed.

Example parseInt_plain : parseInt "2" = Some 2.
Proof. reflexivity. Qed.

Example parseInt_stops_at_a_letter : parseInt "  -7px" = Some (-7).
Proof. reflexivity. Qed.

Example parseInt_hexadecimal : parseInt "0x1F" = Some 31.
Proof. reflexivity. Qed.

Example parseInt_not_a_number : parseInt "two" = None.
Proof. reflexivity. Qed.

Example numeral_of_minus_forty_two : numeral (-42) = "-42".
Proof. reflexivity. Qed.

Lemma digit_char_is_digit (d : Z) :
  0 <= d < 10 -> is_decimal_digit (digit_char d) = true /\
                 digit_value 10 (digit_char d) = Some d.
Proof.
  intros Hd.
  assert (Hcases : d = 0 \/ d = 1 \/ d = 2 \/ d = 3 \/ d = 4 \/
                   d = 5 \/ d = 6 \/ d = 7 \/ d = 8 \/ d = 9) by lia.
  repeat (destruct Hcases as [->|Hcases]; [split; reflexivity|]).
  subst d. split; reflexivity.
Qed.

Lemma parse_digits_digit (d : Z) (rest : string) (acc : option Z) :
  0 <= d < 10 ->
  parse_digits 10 (String (digit_char d) rest) acc =
    parse_digits 10 rest (Some (10 * match acc with Some a => a | None => 0 end + d)).
Proof.
  intros Hd. simpl. destruct (digit_char_is_digit d Hd) as [_ ->]. reflexivity.
Qed.

Lemma decimal_digits_step (fuel : nat) (n : Z) (tail : string) :
  decimal_digits (S fuel) n tail =
    if n <? 10 then String (digit_char (n mod 10)) tail
    else decimal_digits fuel (n / 10) (String (digit_char (n mod 10)) tail).
Proof. reflexivity. Qed.

(** Reading back the digits that [decimal_digits] wrote in front of
    [tail], from an accumulator that holds nothing yet. *)
Lemma parse_decimal_digits (fuel : nat) :
  forall n tail acc,
    0 <= n < 2 ^ Z.of_nat (S fuel) ->
    match acc with Some a => a | None => 0 end = 0 ->
    parse_digits 10 (decimal_digits (S fuel) n tail) acc =
      parse_digits 10 tail (Some n).
Proof.
  induction fuel as [|fuel IH]; intros n tail acc Hn Hacc.
  - assert (Hsmall : (n <? 10) = true) by (apply Z.ltb_lt; simpl in Hn; lia).
    rewrite decimal_digits_step, Hsmall.
    rewrite parse_digits_digit by (apply Z.mod_pos_bound; lia).
    rewrite Hacc, Z.mod_small by (simpl in Hn; lia).
    reflexivity.
  - rewrite decimal_digits_step. destruct (n <? 10) eqn:Hsmall.
    + apply Z.ltb_lt in Hsmall.
      rewrite parse_digits_digit by (apply Z.mod_pos_bound; lia).
      rewrite Hacc, Z.mod_small by lia. reflexivity.
    + apply Z.ltb_ge in Hsmall.
      rewrite IH; [| |exact Hacc].
      * rewrite parse_digits_digit by (apply Z.mod_pos_bound; lia).
        f_equal. f_equal. pose proof (Z.div_mod n 10). lia.
      * split; [apply Z.div_pos; lia|].
        apply Z.div_lt_upper_bound; [lia|].
        replace (Z.of_nat (S (S fuel))) with (Z.succ (Z.of_nat (S fuel))) in Hn by lia.
        rewrite Z.pow_succ_r in Hn by lia. lia.
Qed.

(** A numeral starts with a digit, and what follows its first digit is
    nothing or another digit: no sign, no white space, no [0x]. *)
Lemma decimal_digits_shape (fuel : nat) :
  forall n tail,
    0 <= n ->
    exists c rest,
      decimal_digits (S fuel) n tail = String c rest /\
      is_decimal_digit c = true /\
      (rest = tail \/ exists c' rest', rest = String c' rest' /\ is_decimal_digit c' = true).
Proof.
  induction fuel as [|fuel IH]; intros n tail Hn.
  - rewrite decimal_digits_step.
    exists (digit_char (n mod 10)), tail.
    destruct (n <? 10); (split; [reflexivity|]);
      (split; [apply digit_char_is_digit, Z.mod_pos_bound; lia|left; reflexivity]).
  - rewrite decimal_digits_step. destruct (n <? 10).
    + exists (digit_char (n mod 10)), tail. split; [reflexivity|].
      split; [apply digit_char_is_digit, Z.mod_pos_bound; lia|left; reflexivity].
    + destruct (IH (n / 10) (String (digit_char (n mod 10)) tail))
        as (c & rest & Heq & Hc & Hrest); [apply Z.div_pos; lia|].
      exists c, rest. split; [exact Heq|]. split; [exact Hc|].
      right. destruct Hrest as [->|Hnext]; [|exact Hnext].
      eexists _, _. split; [reflexivity|].
      apply digit_char_is_digit, Z.mod_pos_bound; lia.
Qed.

Ltac ascii_cases c :=
  let b0 := fresh "b" in let b1 := fresh "b" in let b2 := fresh "b" in
  let b3 := fresh "b" in let b4 := fresh "b" in let b5 := fresh "b" in
  let b6 := fresh "b" in let b7 := fresh "b" in
  destruct c as [b0 b1 b2 b3 b4 b5 b6 b7];
  destruct b0, b1, b2, b3, b4, b5, b6, b7.

Lemma trim_start_digit (c : ascii) (s : string) :
  is_decimal_digit c = true -> trim_start (String c s) = String c s.
Proof.
  intros Hc. ascii_cases c; try discriminate Hc; reflexivity.
Qed.

(** On a string that starts like a decimal numeral, [parseInt] reads
    the digits in radix 10 and applies no sign. *)
Lemma parseInt_unsigned (c : ascii) (s : string) :
  is_decimal_digit c = true ->
  (s = "" \/ exists c' s', s = String c' s' /\ is_decimal_digit c' = true) ->
  parseInt (String c s) = parse_digits 10 (String c s) None.
Proof.
  intros Hc Hs. unfold parseInt. rewrite (trim_start_digit c s Hc).
  assert (Hsign : forall r : option Z,
             match r with Some v => Some (1 * v) | None => None end = r).
  { intros [[|v|v]|]; reflexivity. }
  ascii_cases c; try discriminate Hc;
    try (cbv beta iota zeta; apply Hsign).
  destruct Hs as [->|(c' & s' & -> & Hc')]; [reflexivity|].
  ascii_cases c'; try discriminate Hc'; cbv beta iota zeta; apply Hsign.
Qed.

Lemma parseInt_negative (c : ascii) (s : string) :
  is_decimal_digit c = true ->
  (s = "" \/ exists c' s', s = String c' s' /\ is_decimal_digit c' = true) ->
  parseInt (String "-" (String c s)) =
    match parse_digits 10 (String c s) None with
    | Some v => Some (- v)
    | None => None
    end.
Proof.
  intros Hc Hs. unfold parseInt.
  assert (Hsign : forall r : option Z,
             match r with Some v => Some (-1 * v) | None => None end =
             match r with Some v => Some (- v) | None => None end).
  { intros [[|v|v]|]; reflexivity. }
  change (trim_start (String "-" (String c s))) with (String "-" (String c s)).
  cbv beta iota zeta.
  ascii_cases c; try discriminate Hc;
    try (cbv beta iota zeta; apply Hsign).
  destruct Hs as [->|(c' & s' & -> & Hc')]; [reflexivity|].
  ascii_cases c'; try discriminate Hc'; cbv beta iota zeta; apply Hsign.
Qed.

Lemma parseInt_decimal (n : Z) : 0 <= n -> parseInt (decimal n) = Some n.
Proof.
  intros Hn. unfold decimal.
  destruct (decimal_digits_shape (Z.to_nat (Z.log2 n)) n "" Hn)
    as (c & rest & Heq & Hc & Hrest).
  rewrite Heq, parseInt_unsigned, <- Heq; [|exact Hc|destruct Hrest; auto].
  rewrite parse_decimal_digits; [reflexivity| |reflexivity].
  rewrite Nat2Z.inj_succ, Z2Nat.id by apply Z.log2_nonneg.
  split; [exact Hn|].
  destruct (Z.eq_dec n 0) as [->|Hpos]; [reflexivity|].
  apply Z.log2_spec. lia.
Qed.

Lemma parseInt_numeral (n : Z) : parseInt (numeral n) = Some n.
Proof.
  unfold numeral. destruct (n <? 0) eqn:Hneg.
  - apply Z.ltb_lt in Hneg.
    assert (Hn : 0 <= - n) by lia.
    pose proof (parseInt_decimal (- n) Hn) as Hdec. unfold decimal in *.
    destruct (decimal_digits_shape (Z.to_nat (Z.log2 (- n))) (- n) "" Hn)
      as (c & rest & Heq & Hc & Hrest).
    rewrite Heq in *.
    rewrite parseInt_unsigned in Hdec; [|exact Hc|destruct Hrest; auto].
    rewrite parseInt_negative, Hdec; [|exact Hc|destruct Hrest; auto].
    f_equal. lia.
  - apply Z.ltb_ge in Hneg. apply parseInt_decimal. exact Hneg.
Qed.

Lemma numeral_truthy (n : Z) : truthy (Some (numeral n)) = true.
Proof.
  pose proof (parseInt_numeral n) as H. unfold truthy.
  destruct (numeral n); [discriminate H|reflexivity].
Qed.

(** The list handler never fails: it answers 200 with the documents the
    query selects. *)
Lemma list_handler_answer env bcrypt_compare omitUndefined o req st :
  serve env bcrypt_compare omitUndefined GET_products o req st =
    (Ok (mkResponse 200
           (Docs match (if truthy (query_limit req)
                        then parseInt match query_limit req with
                                      | Some s => s
                                      | None => ""
                                      end
                        else Some 0) with
                 | Some n => if 0 <? n then firstn (Z.to_nat n) (products st)
                             else products st
                 | None => products st
                 end)), st).
Proof.
  unfold serve, list_handler, Product_find. unfold_action.
  destruct (if truthy (query_limit req) then _ else _) as [n|]; [|reflexivity].
  destruct (0 <? n); reflexivity.
Qed.

Lemma trim_start_white_space (w s : string) :
  In w white_space -> trim_start (w ++ s) = trim_start s.
Proof.
  intros Hin. unfold white_space in Hin. simpl in Hin.
  repeat (destruct Hin as [<-|Hin]; [reflexivity|]). destruct Hin.
Qed.

(** [parseInt] does not see leading white space. *)
Lemma parseInt_padding (ws : list string) (s : string) :
  Forall (fun w => In w white_space) ws ->
  parseInt (padding ws ++ s) = parseInt s.
Proof.
  intros Hws. assert (Htrim : trim_start (padding ws ++ s) = trim_start s).
  { induction Hws as [|w ws Hw _ IH]; [reflexivity|].
    simpl. rewrite string_append_assoc, (trim_start_white_space _ _ Hw). exact IH. }
  unfold parseInt. rewrite Htrim. reflexivity.
Qed.

Lemma parseInt_plus (n : Z) :
  0 <= n -> parseInt (String "+" (decimal n)) = Some n.
Proof.
  intros Hn. pose proof (parseInt_decimal n Hn) as Hdec. unfold decimal in *.
  destruct (decimal_digits_shape (Z.to_nat (Z.log2 n)) n "" Hn)
    as (c & rest & Heq & Hc & Hrest).
  rewrite Heq in *.
  assert (Hs : rest = "" \/ exists c' s', rest = String c' s' /\ is_decimal_digit c' = true)
    by (destruct Hrest; auto).
  rewrite parseInt_unsigned in Hdec by assumption.
  rewrite <- Hdec. clear Hdec Heq Hrest.
  unfold parseInt.
  change (trim_start (String "+" (String c rest))) with (String "+" (String c rest)).
  cbv beta iota zeta.
  assert (Hsign : forall r : option Z,
             match r with Some v => Some (1 * v) | None => None end = r).
  { intros [[|v|v]|]; reflexivity. }
  ascii_cases c; try discriminate Hc;
    try (cbv beta iota zeta; apply Hsign).
  destruct Hs as [->|(c' & s' & -> & Hc')]; [reflexivity|].
  ascii_cases c'; try discriminate Hc'; cbv beta iota zeta; apply Hsign.
Qed.

(** C7: the list route answers 200 and never touches the state.  With
    a limit that [Number.parseInt] reads as the integer [n], it answers
    with the first [n] documents of the collection in its natural order
    when [n] is positive, which are min(n, total) documents, and with
    the whole collection when [n] is zero or negative.  [parseInt] reads
    [n] from its decimal numeral, also behind white space and, for a
    non-negative [n], behind a plus sign.  Without a limit, with an
    empty one, or with one that [parseInt] reads as NaN, the answer is
    the whole collection. *)
Theorem list_honours_positive_limit env bcrypt_compare omitUndefined o req st :
  (forall s n,
     query_limit req = Some s ->
     parseInt s = Some n ->
     serve env bcrypt_compare omitUndefined GET_products o req st =
       (Ok (mkResponse 200
              (Docs (if 0 <? n then firstn (Z.to_nat n) (products st)
                     else products st))), st) /\
     (0 < n ->
      length (firstn (Z.to_nat n) (products st)) =
        Nat.min (Z.to_nat n) (length (products st)))) /\
  (forall ws n,
     Forall (fun w => In w white_space) ws ->
     parseInt (padding ws ++ numeral n) = Some n /\
     (0 <= n -> parseInt (padding ws ++ String "+" (decimal n)) = Some n)) /\
  (query_limit req = None \/ query_limit req = Some "" \/
   (exists s, query_limit req = Some s /\ parseInt s = None) ->
   serve env bcrypt_compare omitUndefined GET_products o req st =
     (Ok (mkResponse 200 (Docs (products st))), st)).
Proof.
  split; [|split].
  - intros s n Hlimit Hparse. split; [|intros _; apply length_firstn].
    rewrite list_handler_answer, Hlimit.
    assert (Htruthy : truthy (Some s) = true).
    { unfold truthy. destruct s; [discriminate Hparse|reflexivity]. }
    rewrite Htruthy, Hparse. reflexivity.
  - intros ws n Hws. split.
    + rewrite parseInt_padding by exact Hws. apply parseInt_numeral.
    + intros Hn. rewrite parseInt_padding by exact Hws. apply parseInt_plus. exact Hn.
  - intros [Hnone|[Hempty|(s & Hs & Hnan)]]; rewrite list_handler_answer.
    + rewrite Hnone. reflexivity.
    + rewrite Hempty. reflexivity.
    + rewrite Hs. destruct (truthy (Some s)); [rewrite Hnan|]; reflexivity.
Qed.

Lemma list_honours_positive_limit_witness :
  (* ?limit=2 over five products *)
  serve Sample.cloud_env Sample.toy_bcrypt false GET_products Sample.outage
    (Sample.list_request (Some "2")) Sample.showroom
  = (Ok (mkResponse 200 (Docs [Sample.sofa; Sample.lamp])), Sample.showroom) /\
  length (firstn 2 Sample.five) = 2%nat /\
  (* a no-break space and a plus sign before the 2 *)
  parseInt (utf8 [194; 160]%nat ++ "+2") = Some 2 /\
  (* no limit *)
  serve Sample.cloud_env Sample.toy_bcrypt false GET_products Sample.outage
    (Sample.list_request None) Sample.showroom
  = (Ok (mkResponse 200 (Docs Sample.five)), Sample.showroom).
Proof.
  destruct (list_honours_positive_limit Sample.cloud_env Sample.toy_bcrypt false
              Sample.outage (Sample.list_request (Some "2")) Sample.showroom)
    as (Hlimit & Hreads & _).
  destruct (Hlimit "2" 2 eq_refl eq_refl) as [Hserve Hlength].
  split; [exact Hserve|]. split; [apply Hlength; lia|]. split.
  - apply (Hreads [utf8 [194; 160]%nat] 2); [|lia].
    constructor; [|constructor]. unfold white_space. simpl. tauto.
  - apply (list_honours_positive_limit Sample.cloud_env Sample.toy_bcrypt false
             Sample.outage (Sample.list_request None) Sample.showroom).
    left. reflexivity.
Defined.

(** ** The image fields of stored products *)

Lemma Forall_replace_first (P : Product -> Prop) (i : ObjectId)
    (f : Product -> Product) (ps : list Product) :
  Forall P ps ->
  (forall q, find (has_id i) ps = Some q -> P (f q)) ->
  Forall P (replace_first i f ps).
Proof.
  induction ps as [|q ps IH]; intros Hall Hf; [constructor|].
  inversion Hall as [|x l Hq Hps]; subst. simpl in *.
  destruct (has_id i q).
  - constructor; [apply Hf; reflexivity|exact Hps].
  - constructor; [exact Hq|apply IH; assumption].
Qed.

Lemma Forall_remove_first (P : Product -> Prop) (i : ObjectId) (ps : list Product) :
  Forall P ps -> Forall P (remove_first i ps).
Proof.
  induction ps as [|q ps IH]; intros Hall; [constructor|].
  inversion Hall; subst. simpl. destruct (has_id i q); [assumption|].
  constructor; auto.
Qed.

(** What [image_fields] computes agrees, provided the fields it started
    from did. *)
Lemma image_fields_agree_computed env file url key (q : Product) :
  (present key = true -> present url = true) /\
  (isCloudinaryConfigured env = true -> present url = true -> present key = true) ->
  (present (snd (image_fields env file url key)) = true ->
   present (fst (image_fields env file url key)) = true) /\
  (isCloudinaryConfigured env = true ->
   present (fst (image_fields env file url key)) = true ->
   present (snd (image_fields env file url key)) = true).
Proof.
  intros [Hkey Hurl]. unfold image_fields.
  destruct file as [f|]; [|split; assumption].
  destruct (isCloudinaryConfigured env); simpl; split; auto; discriminate.
Qed.

Lemma set_key_same omitUndefined {A} (v : option A) : set_key omitUndefined v v = v.
Proof. unfold set_key. destruct v, omitUndefined; reflexivity. Qed.

Lemma set_key_present omitUndefined {A} (a : A) (old : option A) :
  set_key omitUndefined (Some a) old = Some a.
Proof. reflexivity. Qed.

Lemma image_fields_agree_found env (ps : list Product) (i : ObjectId) (p : Product) :
  Forall (image_fields_agree env) ps -> find (has_id i) ps = Some p ->
  image_fields_agree env p.
Proof.
  intros Hall Hfind. apply find_some in Hfind. destruct Hfind as [Hin _].
  rewrite Forall_forall in Hall. exact (Hall p Hin).
Qed.

(** Serving a request keeps the image fields of every stored product in
    agreement. *)
Lemma serve_keeps_image_fields env bcrypt_compare omitUndefined r o req st out st' :
  serve env bcrypt_compare omitUndefined r o req st = (out, st') ->
  Forall (image_fields_agree env) (products st) ->
  Forall (image_fields_agree env) (products st').
Proof.
  intros Hserve Hall. revert Hserve.
  run_serve r; try assumption.
  (* a document is appended *)
  all: try (apply Forall_app; split; [assumption|];
            constructor; [|constructor]; split; simpl; congruence).
  (* a document is removed *)
  all: try (apply Forall_remove_first; assumption).
  (* a document is updated where it stands *)
  all: apply Forall_replace_first; [assumption|];
    intros q Hq;
    pose proof (image_fields_agree_found _ _ _ _ Hall Hq) as [Hkey Hurl];
    try match goal with
        | Hp : find _ _ = Some ?p |- _ => rewrite Hp in Hq; inversion Hq; subst q
        end;
    split; simpl; rewrite ?set_key_same; simpl; auto; congruence.
Qed.

Lemma map_id_replace_first (i : ObjectId) (f : Product -> Product) (ps : list Product) :
  (forall q, _id (f q) = _id q) ->
  map _id (replace_first i f ps) = map _id ps.
Proof.
  intros Hf. induction ps as [|q ps IH]; [reflexivity|].
  simpl. destruct (has_id i q); simpl; [rewrite Hf|rewrite IH]; reflexivity.
Qed.

Lemma In_remove_first (i : ObjectId) (ps : list Product) (x : ObjectId) :
  In x (map _id (remove_first i ps)) -> In x (map _id ps).
Proof.
  induction ps as [|q ps IH]; [auto|].
  simpl. destruct (has_id i q); simpl; intuition.
Qed.

Lemma NoDup_remove_first (i : ObjectId) (ps : list Product) :
  NoDup (map _id ps) -> NoDup (map _id (remove_first i ps)).
Proof.
  induction ps as [|q ps IH]; intros Hnd; [constructor|].
  simpl in *. inversion Hnd as [|x l Hnotin Hnd']; subst.
  destruct (has_id i q); [exact Hnd'|].
  simpl. constructor; [|apply IH; exact Hnd'].
  intros Hin. apply Hnotin. exact (In_remove_first _ _ _ Hin).
Qed.

Lemma NoDup_append_fresh (ps : list Product) (n : ObjectId) (c : Product) :
  NoDup (map _id ps) -> Forall (fun p => (_id p < n)%N) ps -> _id c = n ->
  NoDup (map _id (ps ++ [c])).
Proof.
  intros Hnd Hlt Hc. induction ps as [|q ps IH]; simpl.
  - constructor; [intros []|constructor].
  - simpl in Hnd. inversion Hnd as [|x l Hnotin Hnd']; subst.
    inversion Hlt as [|x l Hq Hps]; subst.
    constructor; [|apply IH; assumption].
    rewrite map_app, in_app_iff. simpl. intros [Hin|[Heq|[]]]; [auto|lia].
Qed.

Lemma Forall_below_succ (ps : list Product) (n : ObjectId) :
  Forall (fun p => (_id p < n)%N) ps ->
  Forall (fun p => (_id p < N.succ n)%N) ps.
Proof. apply Forall_impl. intros p Hp. lia. Qed.

(** Serving a request keeps the ids of the collection distinct and
    below the counter. *)
Lemma serve_keeps_well_formed env bcrypt_compare omitUndefined r o req st out st' :
  serve env bcrypt_compare omitUndefined r o req st = (out, st') ->
  well_formed st -> well_formed st'.
Proof.
  unfold well_formed. intros Hserve [Hnd Hlt]. revert Hserve.
  run_serve r; split; try assumption.
  all: try (apply Forall_below_succ; assumption).
  all: try (eapply NoDup_append_fresh; [eassumption|eassumption|reflexivity]).
  all: try (apply Forall_app; split;
            [apply Forall_below_succ; assumption
            |constructor; [simpl; lia|constructor]]).
  all: try (apply NoDup_remove_first; assumption).
  all: try (apply Forall_remove_first; assumption).
  all: try (rewrite map_id_replace_first; [assumption|reflexivity]).
  all: apply Forall_replace_first; [assumption|];
    intros q Hq; apply find_some in Hq; destruct Hq as [Hin _];
    rewrite Forall_forall in Hlt; exact (Hlt q Hin).
Qed.

Lemma reachable_well_formed env bcrypt_compare omitUndefined st :
  reachable env bcrypt_compare omitUndefined st -> well_formed st.
Proof.
  induction 1 as [us n|st r o req out st' _ IH Hserve].
  - split; constructor.
  - exact (serve_keeps_well_formed _ _ _ _ _ _ _ _ _ Hserve IH).
Qed.

Lemma reachable_image_fields env bcrypt_compare omitUndefined st :
  reachable env bcrypt_compare omitUndefined st ->
  Forall (image_fields_agree env) (products st).
Proof.
  induction 1 as [us n|st r o req out st' _ IH Hserve].
  - constructor.
  - exact (serve_keeps_image_fields _ _ _ _ _ _ _ _ _ Hserve IH).
Qed.

(** Without the cloud configuration no handler ever writes a deletion
    key. *)
Lemma serve_keeps_no_key env bcrypt_compare omitUndefined r o req st out st' :
  isCloudinaryConfigured env = false ->
  serve env bcrypt_compare omitUndefined r o req st = (out, st') ->
  Forall (fun p => cloudinaryId p = None) (products st) ->
  Forall (fun p => cloudinaryId p = None) (products st').
Proof.
  intros Hlocal Hserve Hall. revert Hserve.
  run_serve r; try assumption; try discriminate Hlocal.
  all: try (apply Forall_app; split; [assumption|];
            constructor; [reflexivity|constructor]).
  all: try (apply Forall_remove_first; assumption).
  all: apply Forall_replace_first; [assumption|];
    intros q Hq;
    assert (Hnone : cloudinaryId q = None)
      by (apply find_some in Hq; destruct Hq as [Hin _];
          rewrite Forall_forall in Hall; exact (Hall q Hin));
    try match goal with
        | Hp : find _ _ = Some ?p |- _ => rewrite Hp in Hq; inversion Hq; subst q
        end;
    simpl; rewrite ?Hnone; unfold set_key; destruct omitUndefined; congruence.
Qed.

Lemma reachable_no_key env bcrypt_compare omitUndefined st :
  isCloudinaryConfigured env = false ->
  reachable env bcrypt_compare omitUndefined st ->
  Forall (fun p => cloudinaryId p = None) (products st).
Proof.
  intros Hlocal. induction 1 as [us n|st r o req out st' _ IH Hserve].
  - constructor.
  - exact (serve_keeps_no_key _ _ _ _ _ _ _ _ _ Hlocal Hserve IH).
Qed.

(** C8, as stated, fails: without the Cloudinary configuration an
    uploaded image is kept on the local disk, and the product created
    with it has an image URL and no deletion key. *)
Lemma local_upload_has_url_without_key :
  (isCloudinaryConfigured Sample.local_env = false /\
   serve Sample.local_env Sample.toy_bcrypt false POST_products Sample.outage
     Sample.create_with_snapshot Sample.empty_store
   = (Ok (mkResponse 201
            (MessageProduct "✅ Product added successfully" Sample.local_chair)),
      mkState [Sample.root; Sample.clerk] [Sample.local_chair] 11 [Insert 10]) /\
   present (imageUrl Sample.local_chair) = true /\
   present (cloudinaryId Sample.local_chair) = false) /\
  ~ (forall env bcrypt_compare omitUndefined st p,
        reachable env bcrypt_compare omitUndefined st ->
        In p (products st) ->
        present (imageUrl p) = present (cloudinaryId p)).
Proof.
  split; [repeat split|].
  intros H.
  assert (Hreach : reachable Sample.local_env Sample.toy_bcrypt false
                     (mkState [Sample.root; Sample.clerk] [Sample.local_chair] 11
                        [Insert 10])).
  { apply (reachable_serve _ _ _ Sample.empty_store POST_products Sample.outage
             Sample.create_with_snapshot
             (Ok (mkResponse 201
                    (MessageProduct "✅ Product added successfully"
                       Sample.local_chair)))).
    - apply reachable_start.
    - reflexivity. }
  specialize (H _ _ _ _ _ Hreach (or_introl eq_refl)).
  discriminate H.
Qed.

(** C8 (amended): in every state the server can reach, a product with a
    deletion key has an image URL; when the cloud backend is configured,
    a product has an image URL exactly when it has a deletion key; and
    when it is not configured, no product has a deletion key, whether or
    not it has an image URL. *)
Theorem image_url_and_key_of_reachable_products env bcrypt_compare omitUndefined st p :
  reachable env bcrypt_compare omitUndefined st ->
  In p (products st) ->
  (present (cloudinaryId p) = true -> present (imageUrl p) = true) /\
  (isCloudinaryConfigured env = true ->
   present (imageUrl p) = present (cloudinaryId p)) /\
  (isCloudinaryConfigured env = false -> cloudinaryId p = None).
Proof.
  intros Hreach Hin.
  pose proof (reachable_image_fields _ _ _ _ Hreach) as Hall.
  rewrite Forall_forall in Hall. destruct (Hall p Hin) as [Hkey Hurl].
  split; [exact Hkey|]. split.
  - intros Hcloud. specialize (Hurl Hcloud).
    destruct (present (imageUrl p)), (present (cloudinaryId p)); auto.
    symmetry. apply Hurl. reflexivity.
  - intros Hlocal.
    pose proof (reachable_no_key _ _ _ _ Hlocal Hreach) as Hnone.
    rewrite Forall_forall in Hnone. exact (Hnone p Hin).
Qed.

Lemma image_url_and_key_of_reachable_products_witness :
  reachable Sample.cloud_env Sample.toy_bcrypt false Sample.one_chair /\
  In Sample.cloud_chair (products Sample.one_chair) /\
  isCloudinaryConfigured Sample.cloud_env = true /\
  present (imageUrl Sample.cloud_chair) = present (cloudinaryId Sample.cloud_chair).
Proof.
  assert (Hreach : reachable Sample.cloud_env Sample.toy_bcrypt false Sample.one_chair).
  { apply (reachable_serve _ _ _ Sample.empty_store POST_products Sample.outage
             (Sample.create_request (Sample.bearer Sample.admin_claims) (Some "Chair")
                (Some "Seats") (Stored Sample.photo))
             (Ok (mkResponse 201
                    (MessageProduct "✅ Product added successfully" Sample.cloud_chair)))).
    - apply reachable_start.
    - reflexivity. }
  split; [exact Hreach|]. split; [left; reflexivity|]. split; [reflexivity|].
  apply (image_url_and_key_of_reachable_products _ _ _ Sample.one_chair
           Sample.cloud_chair Hreach (or_introl eq_refl)).
  reflexivity.
Defined.

(** * More of the server *)

(** ** Tokens *)

(** A login that is answered 200 has found an account, had its password
    accepted and signed a token with the configured secret; the state is
    as it was. *)
Lemma login_success env bcrypt_compare omitUndefined o req st res st' :
  serve env bcrypt_compare omitUndefined POST_login o req st = (Ok res, st') ->
  status res = 200 ->
  exists admin key,
    find (selected (body_email req)) (users st) = Some admin /\
    (exists plain,
       body_password req = Some plain /\
       bcrypt_compare plain (password admin) = true) /\
    SECRET_KEY env = Some key /\ key <> "" /\
    res = mkResponse 200
            (TokenUser (Jws (mkClaims (user_id admin) (Some true) (clock o)
                               (Some (clock o + 86400))) key) admin) /\
    st' = st.
Proof.
  intros Hserve Hstatus.
  destruct (find (selected (body_email req)) (users st))
    as [admin|] eqn:Hfind.
  - rewrite (login_found _ _ _ _ _ _ _ Hfind) in Hserve.
    destruct (body_password req) as [plain|];
      [|inversion Hserve; subst; discriminate Hstatus].
    destruct (bcrypt_compare plain (password admin)) eqn:Hcmp;
      [|inversion Hserve; subst; discriminate Hstatus].
    unfold jwt_sign in Hserve.
    destruct (SECRET_KEY env) as [key|] eqn:Hkey;
      [|inversion Hserve; subst; discriminate Hstatus].
    destruct (truthy (Some key)) eqn:Htruthy;
      [|inversion Hserve; subst; discriminate Hstatus].
    inversion Hserve; subst. exists admin, key.
    split; [reflexivity|]. split; [exists plain; auto|].
    split; [reflexivity|]. split; [|split; reflexivity].
    intros ->. discriminate Htruthy.
  - unfold serve, login_handler, User_findOne in Hserve. unfold_action.
    rewrite Hfind in Hserve. inversion Hserve; subst. discriminate Hstatus.
Qed.

(** On a protected route a request that [verifyToken] refuses gets the
    refusal for an answer, and nothing else happens. *)
Lemma refused_by_gateway env bcrypt_compare omitUndefined r o req st res :
  admin_only r = true ->
  verifyToken env o req = inl res ->
  serve env bcrypt_compare omitUndefined r o req st = (Ok res, st).
Proof.
  intros Hr Hv. destruct r; try discriminate Hr; unfold serve, protected;
    rewrite Hv; reflexivity.
Qed.

(** X1: the token that a successful login returns is accepted by
    verifyToken exactly as long as the clock is less than 86400 seconds
    past the login; from then on every protected route answers it 401
    and leaves the state alone. *)
Theorem login_token_lasts_one_day env bcrypt_compare omitUndefined o req st token user st' :
  serve env bcrypt_compare omitUndefined POST_login o req st =
    (Ok (mkResponse 200 (TokenUser token user)), st') ->
  forall o' req' words,
    authorization req' = Some words ->
    nth_error words 1 = Some token ->
    ((exists decoded, verifyToken env o' req' = inr decoded) <->
     clock o' < clock o + 86400) /\
    (clock o + 86400 <= clock o' ->
     forall r st1,
       admin_only r = true ->
       serve env bcrypt_compare omitUndefined r o' req' st1 =
         (Ok (mkResponse 401 (Message "❌ Invalid or Expired Token")), st1)).
Proof.
  intros Hlogin o' req' words Hauth Hword.
  destruct (login_success _ _ _ _ _ _ _ _ Hlogin eq_refl)
    as (admin & key & _ & _ & Hkey & Hne & Hres & _).
  inversion Hres; subst token user. clear Hres.
  assert (Hiff : (exists decoded, verifyToken env o' req' = inr decoded) <->
                 clock o' < clock o + 86400).
  { split.
    - intros [decoded Hv]. apply verifyToken_accepts in Hv.
      destruct Hv as (words' & key' & Hauth' & Hword' & _ & _ & Hexp).
      rewrite Hauth in Hauth'. inversion Hauth'; subst words'.
      rewrite Hword in Hword'. inversion Hword'; subst. exact Hexp.
    - intros Hclock. eexists. apply verifyToken_accepts.
      exists words, key. repeat split; eauto. }
  split; [exact Hiff|].
  intros Hlate r st1 Hr. apply refused_by_gateway; [exact Hr|].
  unfold verifyToken, jwt_verify. rewrite Hauth, Hword, Hkey.
  unfold truthy. apply String.eqb_neq in Hne. rewrite Hne. simpl.
  rewrite String.eqb_refl. simpl.
  apply Z.leb_le in Hlate. rewrite Hlate. reflexivity.
Qed.

Lemma login_token_lasts_one_day_witness :
  serve Sample.cloud_env Sample.toy_bcrypt false POST_login Sample.outage
    (Sample.login_request "root@dream.house" "hunter2") Sample.empty_store
  = (Ok (mkResponse 200
           (TokenUser (Jws (mkClaims 1 (Some true) 1000 (Some 87400)) "s3cret")
              Sample.root)), Sample.empty_store) /\
  clock Sample.outage + 86400 <= clock Sample.next_day /\
  serve Sample.cloud_env Sample.toy_bcrypt false DELETE_products Sample.next_day
    (Sample.request
       (Some [Text "Bearer"; Jws (mkClaims 1 (Some true) 1000 (Some 87400)) "s3cret"])
       (WellFormed 10) NoFile) Sample.showroom
  = (Ok (mkResponse 401 (Message "❌ Invalid or Expired Token")), Sample.showroom).
Proof.
  split; [reflexivity|]. split; [discriminate|].
  apply (login_token_lasts_one_day Sample.cloud_env Sample.toy_bcrypt false
           Sample.outage (Sample.login_request "root@dream.house" "hunter2")
           Sample.empty_store _ Sample.root Sample.empty_store eq_refl
           Sample.next_day
           (Sample.request
              (Some [Text "Bearer";
                     Jws (mkClaims 1 (Some true) 1000 (Some 87400)) "s3cret"])
              (WellFormed 10) NoFile)
           _ eq_refl eq_refl); [discriminate|reflexivity].
Defined.

(** X2: on every protected route a header whose second word is not a
    token, or is a token signed with another key than the configured
    secret, or is a token whose [exp] has been reached, is answered 401
    and the state is left alone, whatever the payload claims. *)
Theorem bad_token_is_refused env bcrypt_compare omitUndefined r o req st words :
  admin_only r = true ->
  authorization req = Some words ->
  (forall s, nth_error words 1 = Some (Text s) ->
     serve env bcrypt_compare omitUndefined r o req st =
       (Ok (mkResponse 401 (Message "❌ Invalid or Expired Token")), st)) /\
  (forall payload key, nth_error words 1 = Some (Jws payload key) ->
     SECRET_KEY env <> Some key ->
     serve env bcrypt_compare omitUndefined r o req st =
       (Ok (mkResponse 401 (Message "❌ Invalid or Expired Token")), st)) /\
  (forall payload key e, nth_error words 1 = Some (Jws payload key) ->
     claim_exp payload = Some e -> e <= clock o ->
     serve env bcrypt_compare omitUndefined r o req st =
       (Ok (mkResponse 401 (Message "❌ Invalid or Expired Token")), st)).
Proof.
  intros Hr Hauth. split; [|split].
  - intros s Hword. apply refused_by_gateway; [exact Hr|].
    unfold verifyToken, jwt_verify. rewrite Hauth, Hword.
    destruct (s =? "")%string; reflexivity.
  - intros payload key Hword Hkey. apply refused_by_gateway; [exact Hr|].
    unfold verifyToken, jwt_verify. rewrite Hauth, Hword.
    destruct (SECRET_KEY env) as [k|]; [|reflexivity].
    destruct (negb (truthy (Some k))); [reflexivity|].
    destruct (key =? k)%string eqn:Heq; [|reflexivity].
    apply String.eqb_eq in Heq. subst k. exfalso. apply Hkey. reflexivity.
  - intros payload key e Hword Hexp Hle. apply refused_by_gateway; [exact Hr|].
    unfold verifyToken, jwt_verify. rewrite Hauth, Hword.
    destruct (SECRET_KEY env) as [k|]; [|reflexivity].
    destruct (negb (truthy (Some k))); [reflexivity|].
    destruct (negb (key =? k)%string); [reflexivity|].
    rewrite Hexp. apply Z.leb_le in Hle. rewrite Hle. reflexivity.
Qed.

Lemma bad_token_is_refused_witness :
  (* an admin payload signed with a guessed key *)
  serve Sample.cloud_env Sample.toy_bcrypt false DELETE_products Sample.outage
    (Sample.request (Some [Text "Bearer"; Jws Sample.admin_claims "guess"])
       (WellFormed 10) NoFile) Sample.showroom
  = (Ok (mkResponse 401 (Message "❌ Invalid or Expired Token")), Sample.showroom) /\
  (* a second word that is no token *)
  serve Sample.cloud_env Sample.toy_bcrypt false DELETE_products Sample.outage
    (Sample.request (Some [Text "Bearer"; Text "abc.def.ghi"])
       (WellFormed 10) NoFile) Sample.showroom
  = (Ok (mkResponse 401 (Message "❌ Invalid or Expired Token")), Sample.showroom).
Proof.
  split.
  - apply (bad_token_is_refused Sample.cloud_env Sample.toy_bcrypt false DELETE_products
             Sample.outage
             (Sample.request (Some [Text "Bearer"; Jws Sample.admin_claims "guess"])
                (WellFormed 10) NoFile)
             Sample.showroom _ eq_refl eq_refl) with (payload := Sample.admin_claims)
                                                     (key := "guess");
      [reflexivity|discriminate].
  - apply (bad_token_is_refused Sample.cloud_env Sample.toy_bcrypt false DELETE_products
             Sample.outage
             (Sample.request (Some [Text "Bearer"; Text "abc.def.ghi"])
                (WellFormed 10) NoFile)
             Sample.showroom _ eq_refl eq_refl) with (s := "abc.def.ghi").
    reflexivity.
Defined.

(** ** Who can change what *)

(** X3: no route ever changes the accounts; and a request after which
    the product collection is different, or for which a handler has made
    a call (a write to the store or a deletion call to the media
    backend), was sent to an admin-only route with a token that
    verifyToken accepted and whose isAdmin claim is true.  (What the
    upload middleware stores before the handler runs is not among these
    calls.) *)
Theorem only_admins_change_the_state env bcrypt_compare omitUndefined r o req st out st' :
  serve env bcrypt_compare omitUndefined r o req st = (out, st') ->
  users st' = users st /\
  (products st' <> products st \/ log st' <> log st ->
   admin_only r = true /\
   exists user,
     verifyToken env o req = inr user /\ truthy_flag (claim_isAdmin user) = true).
Proof.
  intros Hserve. revert Hserve.
  run_serve r; (split; [reflexivity|]); intros Hneq;
    try (exfalso; destruct Hneq as [Hneq|Hneq]; apply Hneq; reflexivity);
    (split; [reflexivity|]);
    match goal with
    | Hv : verifyToken _ _ _ = inr ?c, Hf : negb (truthy_flag (claim_isAdmin ?c)) = false
      |- _ => exists c; split; [reflexivity|];
              apply negb_false_iff in Hf; exact Hf
    end.
Qed.

Lemma only_admins_change_the_state_witness :
  admin_only PATCH_products = true /\
  exists user,
    verifyToken Sample.cloud_env Sample.outage
      (Sample.patch_request (Sample.bearer Sample.admin_claims) (WellFormed 10) true)
    = inr user /\ truthy_flag (claim_isAdmin user) = true.
Proof.
  apply (only_admins_change_the_state Sample.cloud_env Sample.toy_bcrypt false
           PATCH_products Sample.outage
           (Sample.patch_request (Sample.bearer Sample.admin_claims) (WellFormed 10) true)
           Sample.showroom _ _ eq_refl).
  right. discriminate.
Defined.



(** ** Updating a product *)

(** The PUT route for an admin, an upload that went through and an
    existing product.  As for DELETE, the outcome of the deletion call
    does not show in the result. *)
Lemma put_by_admin env bcrypt_compare omitUndefined o req st user file i p :
  verifyToken env o req = inr user ->
  truthy_flag (claim_isAdmin user) = true ->
  uploadMiddleware req = inr file ->
  params_id req = WellFormed i ->
  find (has_id i) (products st) = Some p ->
  serve env bcrypt_compare omitUndefined PUT_products o req st =
    (Ok (mkResponse 200
           (Doc (Some (put_update omitUndefined req
                         (fst (image_fields env file (imageUrl p) (cloudinaryId p)))
                         (snd (image_fields env file (imageUrl p) (cloudinaryId p)))
                         p)))),
     mkState (users st)
       (replace_first i
          (put_update omitUndefined req
             (fst (image_fields env file (imageUrl p) (cloudinaryId p)))
             (snd (image_fields env file (imageUrl p) (cloudinaryId p))))
          (products st))
       (next_id st)
       (log st ++ match file with Some _ => destroy_calls env p | None => [] end
               ++ [Update i])).
Proof.
  intros Hv Hflag Hup Hid Hfind.
  unfold serve, protected, uploading. rewrite Hv, Hup.
  unfold update_handler, Product_findById, Product_findByIdAndUpdate,
    destroy_old_image, cloudinary_destroy, castObjectId, destroy_calls.
  unfold_action. rewrite Hflag, Hid. simpl. rewrite Hfind.
  destruct file as [f|]; simpl.
  - unfold image_fields.
    destruct (cloudinaryId p) as [key|] eqn:Hkey; simpl.
    + destruct (isCloudinaryConfigured env); simpl.
      * destruct (key =? "")%string; simpl.
        -- rewrite Hfind. reflexivity.
        -- destruct (destroy_resolves o key); simpl; rewrite Hfind, <- app_assoc;
             reflexivity.
      * rewrite Hfind. reflexivity.
    + rewrite andb_false_r. simpl.
      destruct (isCloudinaryConfigured env); simpl; rewrite Hfind; reflexivity.
  - rewrite Hfind. reflexivity.
Qed.

Lemma set_key_sent omitUndefined {A} (new old : option A) (v : A) :
  new = Some v -> set_key omitUndefined new old = Some v.
Proof. intros ->. reflexivity. Qed.

(** X4: a PUT by an admin on an existing product with no file part
    answers 200 with the updated document and rewrites that document
    where it stands; its id, its two image fields and its featured flag
    are those of the stored document, each text field that the body
    carries is replaced by the body's value, and the only call made is
    the update itself: nothing is asked of the media backend. *)
Theorem update_without_file_keeps_image env bcrypt_compare omitUndefined o req st user i p :
  verifyToken env o req = inr user ->
  truthy_flag (claim_isAdmin user) = true ->
  multipart req = NoFile ->
  params_id req = WellFormed i ->
  find (has_id i) (products st) = Some p ->
  exists updated before after,
    products st = before ++ p :: after /\
    serve env bcrypt_compare omitUndefined PUT_products o req st =
      (Ok (mkResponse 200 (Doc (Some updated))),
       mkState (users st) (before ++ updated :: after) (next_id st)
         (log st ++ [Update i])) /\
    _id updated = _id p /\
    imageUrl updated = imageUrl p /\
    cloudinaryId updated = cloudinaryId p /\
    featured updated = featured p /\
    (forall v, body_name req = Some v -> name updated = Some v) /\
    (forall v, body_category req = Some v -> category updated = Some v) /\
    (forall v, body_subCategory req = Some v -> subCategory updated = Some v) /\
    (forall v, body_description req = Some v -> description updated = Some v).
Proof.
  intros Hv Hflag Hup Hid Hfind.
  assert (Hmw : uploadMiddleware req = inr None)
    by (unfold uploadMiddleware; rewrite Hup; reflexivity).
  pose proof (put_by_admin env bcrypt_compare omitUndefined o req st user None i p
                Hv Hflag Hmw Hid Hfind) as Hserve.
  destruct (replace_first_split i
              (put_update omitUndefined req (imageUrl p) (cloudinaryId p)) _ _ Hfind)
    as (before & after & Hps & _ & Hrep).
  exists (put_update omitUndefined req (imageUrl p) (cloudinaryId p) p), before, after.
  split; [exact Hps|].
  split; [rewrite Hserve; simpl; rewrite Hrep; reflexivity|].
  simpl. rewrite !set_key_same.
  repeat split; intros v Hsent; apply set_key_sent; exact Hsent.
Qed.

Lemma update_without_file_keeps_image_witness :
  serve Sample.cloud_env Sample.toy_bcrypt false PUT_products Sample.outage
    (Sample.put_request (Sample.bearer Sample.admin_claims) (WellFormed 10)
       (Some "Couch") (Some "Lounge") NoFile) Sample.showroom
  = (Ok (mkResponse 200
           (Doc (Some (mkProduct 10 (Some "Couch") (Some "Lounge") None None
                         (Some "https://res.cloudinary.com/dream-house/sofa.jpg")
                         (Some "dream-house-products/sofa") (Some false))))),
     mkState [Sample.root; Sample.clerk]
       (mkProduct 10 (Some "Couch") (Some "Lounge") None None
          (Some "https://res.cloudinary.com/dream-house/sofa.jpg")
          (Some "dream-house-products/sofa") (Some false) :: tl Sample.five)
       15 [Update 10]).
Proof.
  destruct (update_without_file_keeps_image Sample.cloud_env Sample.toy_bcrypt false
              Sample.outage
              (Sample.put_request (Sample.bearer Sample.admin_claims) (WellFormed 10)
                 (Some "Couch") (Some "Lounge") NoFile)
              Sample.showroom Sample.admin_claims 10%N Sample.sofa
              eq_refl eq_refl eq_refl eq_refl eq_refl)
    as (updated & before & after & _).
  reflexivity.
Defined.

(** X5: a PUT by an admin with a new file, on the cloud configuration.
    The updated document takes the file's URL and deletion key.  When
    the stored document had a (non-empty) deletion key, exactly one
    deletion call with that old key is made, before the update; when it
    had none, the update is the only call.  Whether the deletion call
    resolves or rejects, the answer is 200 with the updated document. *)
Theorem update_with_file_replaces_cloud_image env bcrypt_compare omitUndefined o req st
    user i p f :
  verifyToken env o req = inr user ->
  truthy_flag (claim_isAdmin user) = true ->
  multipart req = Stored f ->
  isCloudinaryConfigured env = true ->
  params_id req = WellFormed i ->
  find (has_id i) (products st) = Some p ->
  exists updated before after,
    products st = before ++ p :: after /\
    _id updated = _id p /\
    imageUrl updated = Some (path f) /\
    cloudinaryId updated = Some (filename f) /\
    featured updated = featured p /\
    (forall key, cloudinaryId p = Some key -> key <> "" ->
       serve env bcrypt_compare omitUndefined PUT_products o req st =
         (Ok (mkResponse 200 (Doc (Some updated))),
          mkState (users st) (before ++ updated :: after) (next_id st)
            (log st ++ [Destroy key; Update i]))) /\
    (cloudinaryId p = None ->
     serve env bcrypt_compare omitUndefined PUT_products o req st =
       (Ok (mkResponse 200 (Doc (Some updated))),
        mkState (users st) (before ++ updated :: after) (next_id st)
          (log st ++ [Update i]))).
Proof.
  intros Hv Hflag Hup Hcloud Hid Hfind.
  assert (Hmw : uploadMiddleware req = inr (Some f))
    by (unfold uploadMiddleware; rewrite Hup; reflexivity).
  pose proof (put_by_admin env bcrypt_compare omitUndefined o req st user (Some f) i p
                Hv Hflag Hmw Hid Hfind) as Hserve.
  unfold image_fields in Hserve. rewrite Hcloud in Hserve.
  cbn [fst snd] in Hserve.
  destruct (replace_first_split i
              (put_update omitUndefined req (Some (path f)) (Some (filename f)))
              _ _ Hfind)
    as (before & after & Hps & _ & Hrep).
  exists (put_update omitUndefined req (Some (path f)) (Some (filename f)) p),
    before, after.
  split; [exact Hps|]. do 4 (split; [reflexivity|]). split.
  - intros key Hkey Hne. rewrite Hserve, Hrep. unfold destroy_calls.
    rewrite Hkey, Hcloud. apply String.eqb_neq in Hne. rewrite Hne. reflexivity.
  - intros Hkey. rewrite Hserve, Hrep. unfold destroy_calls. rewrite Hkey.
    reflexivity.
Qed.

Lemma update_with_file_replaces_cloud_image_witness :
  (* Cloudinary is down: the old picture of the sofa is asked for once,
     the new one is stored all the same *)
  serve Sample.cloud_env Sample.toy_bcrypt false PUT_products Sample.outage
    (Sample.put_request (Sample.bearer Sample.admin_claims) (WellFormed 10)
       (Some "Sofa") (Some "Living room") (Stored Sample.photo)) Sample.showroom
  = (Ok (mkResponse 200
           (Doc (Some (mkProduct 10 (Some "Sofa") (Some "Living room") None None
                         (Some (path Sample.photo)) (Some (filename Sample.photo))
                         (Some false))))),
     mkState [Sample.root; Sample.clerk]
       (mkProduct 10 (Some "Sofa") (Some "Living room") None None
          (Some (path Sample.photo)) (Some (filename Sample.photo)) (Some false)
        :: tl Sample.five)
       15 [Destroy "dream-house-products/sofa"; Update 10]).
Proof.
  destruct (update_with_file_replaces_cloud_image Sample.cloud_env Sample.toy_bcrypt
              false Sample.outage
              (Sample.put_request (Sample.bearer Sample.admin_claims) (WellFormed 10)
                 (Some "Sofa") (Some "Living room") (Stored Sample.photo))
              Sample.showroom Sample.admin_claims 10%N Sample.sofa Sample.photo
              eq_refl eq_refl eq_refl eq_refl eq_refl eq_refl)
    as (updated & before & after & _).
  reflexivity.
Defined.

(** X6: a PUT by an admin with a new file, without the cloud
    configuration.  The updated document takes the URL
    [/uploads/<filename>] and keeps whatever deletion key the stored
    document had; no deletion call is made, the update is the only
    call. *)
Theorem update_with_file_on_local_disk env bcrypt_compare omitUndefined o req st
    user i p f :
  verifyToken env o req = inr user ->
  truthy_flag (claim_isAdmin user) = true ->
  multipart req = Stored f ->
  isCloudinaryConfigured env = false ->
  params_id req = WellFormed i ->
  find (has_id i) (products st) = Some p ->
  exists updated before after,
    products st = before ++ p :: after /\
    serve env bcrypt_compare omitUndefined PUT_products o req st =
      (Ok (mkResponse 200 (Doc (Some updated))),
       mkState (users st) (before ++ updated :: after) (next_id st)
         (log st ++ [Update i])) /\
    _id updated = _id p /\
    imageUrl updated = Some ("/uploads/" ++ filename f)%string /\
    cloudinaryId updated = cloudinaryId p /\
    featured updated = featured p.
Proof.
  intros Hv Hflag Hup Hlocal Hid Hfind.
  assert (Hmw : uploadMiddleware req = inr (Some f))
    by (unfold uploadMiddleware; rewrite Hup; reflexivity).
  pose proof (put_by_admin env bcrypt_compare omitUndefined o req st user (Some f) i p
                Hv Hflag Hmw Hid Hfind) as Hserve.
  unfold image_fields, destroy_calls in Hserve. rewrite Hlocal in Hserve.
  cbn [fst snd andb] in Hserve.
  assert (Hcalls : match cloudinaryId p with Some _ => [] | None => [] end
                   = @nil effect) by (destruct (cloudinaryId p); reflexivity).
  rewrite Hcalls in Hserve. cbn [app] in Hserve.
  destruct (replace_first_split i
              (put_update omitUndefined req (Some ("/uploads/" ++ filename f)%string)
                 (cloudinaryId p)) _ _ Hfind)
    as (before & after & Hps & _ & Hrep).
  exists (put_update omitUndefined req (Some ("/uploads/" ++ filename f)%string)
            (cloudinaryId p) p), before, after.
  split; [exact Hps|]. split; [rewrite Hserve, Hrep; reflexivity|].
  simpl. rewrite set_key_same. repeat split.
Qed.

Lemma update_with_file_on_local_disk_witness :
  (* the sofa keeps its Cloudinary key next to its new local picture *)
  serve Sample.local_env Sample.toy_bcrypt false PUT_products Sample.outage
    (Sample.put_request (Sample.bearer Sample.admin_claims) (WellFormed 10)
       (Some "Sofa") (Some "Living room") (Stored Sample.snapshot)) Sample.showroom
  = (Ok (mkResponse 200
           (Doc (Some (mkProduct 10 (Some "Sofa") (Some "Living room") None None
                         (Some "/uploads/1700000000000-42.jpg")
                         (Some "dream-house-products/sofa") (Some false))))),
     mkState [Sample.root; Sample.clerk]
       (mkProduct 10 (Some "Sofa") (Some "Living room") None None
          (Some "/uploads/1700000000000-42.jpg")
          (Some "dream-house-products/sofa") (Some false) :: tl Sample.five)
       15 [Update 10]).
Proof.
  destruct (update_with_file_on_local_disk Sample.local_env Sample.toy_bcrypt
              false Sample.outage
              (Sample.put_request (Sample.bearer Sample.admin_claims) (WellFormed 10)
                 (Some "Sofa") (Some "Living room") (Stored Sample.snapshot))
              Sample.showroom Sample.admin_claims 10%N Sample.sofa Sample.snapshot
              eq_refl eq_refl eq_refl eq_refl eq_refl eq_refl)
    as (updated & before & after & _).
  reflexivity.
Defined.

(** X7: the update handler does not check the required fields.  For an
    admin, an upload that went through and an existing product, a body
    whose name is the empty string is refused with 400 by POST and
    accepted with 200 by PUT, which stores the empty name: the id then
    finds a document whose name is empty. *)
Theorem update_accepts_an_empty_name env bcrypt_compare omitUndefined o req st
    user file i p :
  verifyToken env o req = inr user ->
  truthy_flag (claim_isAdmin user) = true ->
  uploadMiddleware req = inr file ->
  params_id req = WellFormed i ->
  find (has_id i) (products st) = Some p ->
  body_name req = Some "" ->
  serve env bcrypt_compare omitUndefined POST_products o req st =
    (Ok (mkResponse 400 (Message "⚠️ Missing required fields.")), st) /\
  exists updated st',
    serve env bcrypt_compare omitUndefined PUT_products o req st =
      (Ok (mkResponse 200 (Doc (Some updated))), st') /\
    name updated = Some "" /\
    find (has_id i) (products st') = Some updated.
Proof.
  intros Hv Hflag Hup Hid Hfind Hname. split.
  - unfold serve, protected, uploading. rewrite Hv, Hup.
    unfold create_handler. unfold_action. rewrite Hflag, Hname. reflexivity.
  - rewrite (put_by_admin _ _ _ _ _ _ _ _ _ _ Hv Hflag Hup Hid Hfind).
    eexists _, _. split; [reflexivity|]. split.
    + simpl. rewrite Hname. reflexivity.
    + cbn [products].
      destruct (replace_first_split i
                  (put_update omitUndefined req
                     (fst (image_fields env file (imageUrl p) (cloudinaryId p)))
                     (snd (image_fields env file (imageUrl p) (cloudinaryId p))))
                  _ _ Hfind) as (before & after & _ & Hnone & Hrep).
      rewrite Hrep. apply find_past_prefix; [exact Hnone|].
      simpl. exact (find_has_id _ _ _ Hfind).
Qed.

Lemma update_accepts_an_empty_name_witness :
  serve Sample.cloud_env Sample.toy_bcrypt true POST_products Sample.outage
    (Sample.put_request (Sample.bearer Sample.admin_claims) (WellFormed 11)
       (Some "") (Some "Lighting") NoFile) Sample.showroom
  = (Ok (mkResponse 400 (Message "⚠️ Missing required fields.")), Sample.showroom) /\
  serve Sample.cloud_env Sample.toy_bcrypt true PUT_products Sample.outage
    (Sample.put_request (Sample.bearer Sample.admin_claims) (WellFormed 11)
       (Some "") (Some "Lighting") NoFile) Sample.showroom
  = (Ok (mkResponse 200
           (Doc (Some (mkProduct 11 (Some "") (Some "Lighting") None (Some "Brass")
                         None None (Some true))))),
     mkState [Sample.root; Sample.clerk]
       (Sample.sofa
        :: mkProduct 11 (Some "") (Some "Lighting") None (Some "Brass") None None
             (Some true)
        :: tl (tl Sample.five))
       15 [Update 11]).
Proof.
  destruct (update_accepts_an_empty_name Sample.cloud_env Sample.toy_bcrypt true
              Sample.outage
              (Sample.put_request (Sample.bearer Sample.admin_claims) (WellFormed 11)
                 (Some "") (Some "Lighting") NoFile)
              Sample.showroom Sample.admin_claims None 11%N Sample.lamp
              eq_refl eq_refl eq_refl eq_refl eq_refl eq_refl)
    as (Hpost & _).
  split; [exact Hpost|reflexivity].
Defined.



(** ** How the operations compose *)

(** The POST route for an admin, an upload that went through and a body
    with a name and a category. *)
Lemma create_by_admin env bcrypt_compare omitUndefined o req st user file :
  verifyToken env o req = inr user ->
  truthy_flag (claim_isAdmin user) = true ->
  uploadMiddleware req = inr file ->
  truthy (body_name req) = true ->
  truthy (body_category req) = true ->
  serve env bcrypt_compare omitUndefined POST_products o req st =
    (Ok (mkResponse 201
           (MessageProduct "✅ Product added successfully"
              (mkProduct (next_id st) (body_name req) (body_category req)
                 (body_subCategory req) (body_description req)
                 (fst (image_fields env file None None))
                 (snd (image_fields env file None None)) (Some false)))),
     mkState (users st)
       (products st ++
        [mkProduct (next_id st) (body_name req) (body_category req)
           (body_subCategory req) (body_description req)
           (fst (image_fields env file None None))
           (snd (image_fields env file None None)) (Some false)])
       (N.succ (next_id st)) (log st ++ [Insert (next_id st)])).
Proof.
  intros Hv Hflag Hup Hname Hcat.
  unfold serve, protected, uploading. rewrite Hv, Hup.
  unfold create_handler, new_Product, save. unfold_action.
  rewrite Hflag, Hname, Hcat. simpl.
  destruct (image_fields env file None None) as [url key]. simpl.
  rewrite Hname, Hcat. reflexivity.
Qed.


Lemma next_id_is_new st :
  well_formed st -> find (has_id (next_id st)) (products st) = None.
Proof.
  intros [_ Hlt]. apply find_has_id_none. intros Hin.
  apply in_map_iff in Hin. destruct Hin as (q & Hq & Hin).
  rewrite Forall_forall in Hlt. specialize (Hlt q Hin). lia.
Qed.

Lemma find_appended (i : ObjectId) (ps : list Product) (c : Product) :
  find (has_id i) ps = None -> _id c = i -> find (has_id i) (ps ++ [c]) = Some c.
Proof. intros Hnone Hid. apply find_past_prefix; assumption. Qed.

Lemma remove_first_appended (i : ObjectId) (ps : list Product) (c : Product) :
  find (has_id i) ps = None -> _id c = i -> remove_first i (ps ++ [c]) = ps.
Proof.
  intros Hnone Hid. induction ps as [|q ps IH]; simpl.
  - unfold has_id. rewrite Hid, N.eqb_refl. reflexivity.
  - simpl in Hnone. destruct (has_id i q); [discriminate|]. rewrite IH; auto.
Qed.

(** X9: a product that an admin has just created is listed: the POST
    answers 201 with the created record, and a GET without a limit on
    the resulting state answers with the old collection followed by that
    very record; the record carries the body's fields, is not featured,
    has null image fields when no file was sent, and is what its id
    finds. *)
Theorem created_product_is_listed env bcrypt_compare omitUndefined o req st user file :
  verifyToken env o req = inr user ->
  truthy_flag (claim_isAdmin user) = true ->
  uploadMiddleware req = inr file ->
  truthy (body_name req) = true ->
  truthy (body_category req) = true ->
  well_formed st ->
  exists created st1,
    serve env bcrypt_compare omitUndefined POST_products o req st =
      (Ok (mkResponse 201 (MessageProduct "✅ Product added successfully" created)),
       st1) /\
    (forall o' req',
       query_limit req' = None ->
       serve env bcrypt_compare omitUndefined GET_products o' req' st1 =
         (Ok (mkResponse 200 (Docs (products st ++ [created]))), st1)) /\
    find (has_id (_id created)) (products st1) = Some created /\
    name created = body_name req /\
    category created = body_category req /\
    subCategory created = body_subCategory req /\
    description created = body_description req /\
    featured created = Some false /\
    (file = None -> imageUrl created = None /\ cloudinaryId created = None).
Proof.
  intros Hv Hflag Hup Hname Hcat Hwf.
  eexists _, _. split; [exact (create_by_admin _ _ _ _ _ _ _ _ Hv Hflag Hup Hname Hcat)|].
  split; [|split].
  - intros o' req' Hlimit. rewrite list_handler_answer, Hlimit. reflexivity.
  - cbn [products _id]. apply find_appended; [apply next_id_is_new; exact Hwf|].
    reflexivity.
  - simpl. repeat split; subst file; reflexivity.
Qed.

Lemma created_product_is_listed_witness :
  serve Sample.cloud_env Sample.toy_bcrypt false GET_products Sample.fair_weather
    (Sample.list_request None) Sample.one_chair
  = (Ok (mkResponse 200 (Docs [Sample.cloud_chair])), Sample.one_chair).
Proof.
  destruct (created_product_is_listed Sample.cloud_env Sample.toy_bcrypt false
              Sample.outage
              (Sample.create_request (Sample.bearer Sample.admin_claims) (Some "Chair")
                 (Some "Seats") (Stored Sample.photo))
              Sample.empty_store Sample.admin_claims (Some Sample.photo)
              eq_refl eq_refl eq_refl eq_refl eq_refl
              (conj (NoDup_nil _) (Forall_nil _)))
    as (created & st1 & Hpost & Hget & _).
  inversion Hpost; subst created st1.
  apply (Hget Sample.fair_weather (Sample.list_request None)). reflexivity.
Defined.

(** X10: deleting a product right after it was created puts the
    collection back as it was: for admins' requests, a successful POST
    followed by a DELETE of the id it assigned leaves exactly the
    products that were there before the POST. *)
Theorem create_then_delete_restores env bcrypt_compare omitUndefined o req st user file
    o' req' user' :
  verifyToken env o req = inr user ->
  truthy_flag (claim_isAdmin user) = true ->
  uploadMiddleware req = inr file ->
  truthy (body_name req) = true ->
  truthy (body_category req) = true ->
  well_formed st ->
  verifyToken env o' req' = inr user' ->
  truthy_flag (claim_isAdmin user') = true ->
  params_id req' = WellFormed (next_id st) ->
  exists created st1 st2,
    serve env bcrypt_compare omitUndefined POST_products o req st =
      (Ok (mkResponse 201 (MessageProduct "✅ Product added successfully" created)),
       st1) /\
    _id created = next_id st /\
    serve env bcrypt_compare omitUndefined DELETE_products o' req' st1 =
      (Ok (mkResponse 200 (Message "✅ Product deleted successfully.")), st2) /\
    products st2 = products st.
Proof.
  intros Hv Hflag Hup Hname Hcat Hwf Hv' Hflag' Hid'.
  pose proof (next_id_is_new st Hwf) as Hnew.
  pose proof (create_by_admin env bcrypt_compare omitUndefined o req st user file
                Hv Hflag Hup Hname Hcat) as Hpost.
  remember (mkProduct (next_id st) (body_name req) (body_category req)
              (body_subCategory req) (body_description req)
              (fst (image_fields env file None None))
              (snd (image_fields env file None None)) (Some false)) as created
    eqn:Hcreated.
  remember (mkState (users st) (products st ++ [created]) (N.succ (next_id st))
              (log st ++ [Insert (next_id st)])) as st1 eqn:Hst1.
  assert (Hid : _id created = next_id st) by (subst created; reflexivity).
  assert (Hfound : find (has_id (next_id st)) (products st1) = Some created).
  { subst st1. cbn [products]. apply find_appended; assumption. }
  pose proof (delete_by_admin env bcrypt_compare omitUndefined o' req' st1 user'
                (next_id st) created Hv' Hflag' Hid' Hfound) as Hdelete.
  exists created, st1. eexists. split; [exact Hpost|]. split; [exact Hid|].
  split; [exact Hdelete|].
  subst st1. cbn [products]. apply remove_first_appended; assumption.
Qed.

Lemma create_then_delete_restores_witness :
  serve Sample.cloud_env Sample.toy_bcrypt false DELETE_products Sample.outage
    (Sample.request (Sample.bearer Sample.admin_claims) (WellFormed 10) NoFile)
    Sample.one_chair
  = (Ok (mkResponse 200 (Message "✅ Product deleted successfully.")),
     mkState [Sample.root; Sample.clerk] [] 11
       [Insert 10; Destroy "dream-house-products/new"; Remove 10]).
Proof.
  destruct (create_then_delete_restores Sample.cloud_env Sample.toy_bcrypt false
              Sample.outage
              (Sample.create_request (Sample.bearer Sample.admin_claims) (Some "Chair")
                 (Some "Seats") (Stored Sample.photo))
              Sample.empty_store Sample.admin_claims (Some Sample.photo)
              Sample.outage
              (Sample.request (Sample.bearer Sample.admin_claims) (WellFormed 10) NoFile)
              Sample.admin_claims
              eq_refl eq_refl eq_refl eq_refl eq_refl
              (conj (NoDup_nil _) (Forall_nil _)) eq_refl eq_refl eq_refl)
    as (created & st1 & st2 & _).
  reflexivity.
Defined.



Lemma find_replace_first (i : ObjectId) (f : Product -> Product) (ps : list Product) :
  (forall q, _id (f q) = _id q) ->
  find (has_id i) (replace_first i f ps) = option_map f (find (has_id i) ps).
Proof.
  intros Hf. induction ps as [|q ps IH]; [reflexivity|].
  simpl. destruct (has_id i q) eqn:Hq; simpl.
  - unfold has_id in *. rewrite Hf, Hq. reflexivity.
  - rewrite Hq. exact IH.
Qed.

Lemma replace_first_twice (i : ObjectId) (f : Product -> Product) (ps : list Product) :
  (forall q, _id (f q) = _id q) ->
  (forall q, f (f q) = f q) ->
  replace_first i f (replace_first i f ps) = replace_first i f ps.
Proof.
  intros Hid Hidem. induction ps as [|q ps IH]; [reflexivity|].
  simpl. destruct (has_id i q) eqn:Hq; simpl.
  - unfold has_id in *. rewrite Hid, Hq, Hidem. reflexivity.
  - rewrite Hq, IH. reflexivity.
Qed.

Lemma patch_update_twice omitUndefined req (q : Product) :
  patch_update omitUndefined req (patch_update omitUndefined req q) =
  patch_update omitUndefined req q.
Proof.
  unfold patch_update, set_key. simpl.
  destruct (body_featured req), omitUndefined; reflexivity.
Qed.

(** X12: sending the same PATCH again changes nothing more.  For an
    admin and a well-formed id, whatever the body and whether or not the
    product exists, the second request gets the same answer as the first
    and leaves the collection as the first left it. *)
Theorem repeated_patch_changes_nothing_more env bcrypt_compare omitUndefined o req st
    user i :
  verifyToken env o req = inr user ->
  truthy_flag (claim_isAdmin user) = true ->
  params_id req = WellFormed i ->
  exists answer st1 st2,
    serve env bcrypt_compare omitUndefined PATCH_products o req st = (Ok answer, st1) /\
    serve env bcrypt_compare omitUndefined PATCH_products o req st1 = (Ok answer, st2) /\
    products st2 = products st1.
Proof.
  intros Hv Hflag Hid.
  exists (mkResponse 200
            (Doc (option_map (patch_update omitUndefined req)
                    (find (has_id i) (products st))))),
    (mkState (users st)
       (replace_first i (patch_update omitUndefined req) (products st))
       (next_id st) (log st ++ [Update i])),
    (mkState (users st)
       (replace_first i (patch_update omitUndefined req) (products st))
       (next_id st) ((log st ++ [Update i]) ++ [Update i])).
  split; [exact (patch_by_admin _ _ _ _ _ _ _ _ Hv Hflag Hid)|].
  split; [|reflexivity].
  rewrite (patch_by_admin _ _ _ _ _ _ _ _ Hv Hflag Hid).
  cbn [products users next_id log].
  rewrite find_replace_first by reflexivity.
  rewrite replace_first_twice by (reflexivity || apply patch_update_twice).
  f_equal. f_equal. f_equal.
  destruct (find (has_id i) (products st)) as [q|]; simpl; [|reflexivity].
  rewrite patch_update_twice. reflexivity.
Qed.

Lemma repeated_patch_changes_nothing_more_witness :
  exists answer st1 st2,
    serve Sample.cloud_env Sample.toy_bcrypt false PATCH_products Sample.outage
      (Sample.patch_request (Sample.bearer Sample.admin_claims) (WellFormed 10) true)
      Sample.showroom = (Ok answer, st1) /\
    serve Sample.cloud_env Sample.toy_bcrypt false PATCH_products Sample.outage
      (Sample.patch_request (Sample.bearer Sample.admin_claims) (WellFormed 10) true)
      st1 = (Ok answer, st2) /\
    products st2 = products st1.
Proof.
  apply (repeated_patch_changes_nothing_more Sample.cloud_env Sample.toy_bcrypt false
           Sample.outage
           (Sample.patch_request (Sample.bearer Sample.admin_claims) (WellFormed 10) true)
           Sample.showroom Sample.admin_claims 10%N eq_refl eq_refl eq_refl).
Defined.

(** ** The ids of the collection *)

(** X14: PUT and PATCH never add, remove or reorder products: whatever
    the request and however it is answered, the ids of the collection,
    in order, and the id counter are the same after as before. *)
Theorem updates_keep_ids_and_order env bcrypt_compare omitUndefined r o req st out st' :
  r = PUT_products \/ r = PATCH_products ->
  serve env bcrypt_compare omitUndefined r o req st = (out, st') ->
  map _id (products st') = map _id (products st) /\ next_id st' = next_id st.
Proof.
  intros Hr Hserve. revert Hserve.
  run_serve r; (destruct Hr as [Hr|Hr]; try discriminate Hr);
    (split; [|reflexivity]); try reflexivity;
    apply map_id_replace_first; reflexivity.
Qed.

Lemma updates_keep_ids_and_order_witness :
  map _id (mkProduct 10 (Some "Couch") (Some "Lounge") None None
             (Some "https://res.cloudinary.com/dream-house/sofa.jpg")
             (Some "dream-house-products/sofa") (Some false) :: tl Sample.five)
  = map _id (products Sample.showroom).
Proof.
  apply (updates_keep_ids_and_order Sample.cloud_env Sample.toy_bcrypt false
           PUT_products Sample.outage
           (Sample.put_request (Sample.bearer Sample.admin_claims) (WellFormed 10)
              (Some "Couch") (Some "Lounge") NoFile)
           Sample.showroom
           (Ok (mkResponse 200
                  (Doc (Some (mkProduct 10 (Some "Couch") (Some "Lounge") None None
                                (Some "https://res.cloudinary.com/dream-house/sofa.jpg")
                                (Some "dream-house-products/sofa") (Some false))))))
           (mkState [Sample.root; Sample.clerk]
              (mkProduct 10 (Some "Couch") (Some "Lounge") None None
                 (Some "https://res.cloudinary.com/dream-house/sofa.jpg")
                 (Some "dream-house-products/sofa") (Some false) :: tl Sample.five)
              15 [Update 10])
           (or_introl eq_refl) eq_refl).
Defined.

(** ** Limits that are not plain numerals *)

Lemma decimal_digits_app (fuel : nat) :
  forall n tail more,
    (decimal_digits fuel n tail ++ more)%string = decimal_digits fuel n (tail ++ more).
Proof.
  induction fuel as [|fuel IH]; intros n tail more; [reflexivity|].
  rewrite !decimal_digits_step. destruct (n <? 10); [reflexivity|].
  rewrite IH. reflexivity.
Qed.

Lemma not_a_digit_stops (c : ascii) :
  is_decimal_digit c = false -> digit_value 10 c = None.
Proof.
  intros Hc. ascii_cases c; try discriminate Hc; reflexivity.
Qed.

(** [parseInt] on a string that starts with a decimal digit which is not
    the [0] of a [0x]. *)
Lemma parseInt_leading_digit (c : ascii) (s : string) :
  is_decimal_digit c = true ->
  match s with
  | String c' _ => c' <> "x"%char /\ c' <> "X"%char
  | EmptyString => True
  end ->
  parseInt (String c s) = parse_digits 10 (String c s) None.
Proof.
  intros Hc Hs. unfold parseInt. rewrite (trim_start_digit c s Hc).
  assert (Hsign : forall r : option Z,
             match r with Some v => Some (1 * v) | None => None end = r).
  { intros [[|v|v]|]; reflexivity. }
  ascii_cases c; try discriminate Hc;
    try (cbv beta iota zeta; apply Hsign).
  destruct s as [|c' s']; [reflexivity|]. destruct Hs as [Hx HX].
  ascii_cases c';
    try (exfalso; apply Hx; reflexivity);
    try (exfalso; apply HX; reflexivity);
    cbv beta iota zeta; apply Hsign.
Qed.

(** The numeral of a non-negative integer followed by a character that
    is neither a digit nor an [x] reads back as that integer, whatever
    comes after. *)
Lemma parseInt_decimal_then_text (n : Z) (c : ascii) (s : string) :
  0 <= n ->
  is_decimal_digit c = false -> c <> "x"%char -> c <> "X"%char ->
  parseInt (decimal n ++ String c s)%string = Some n.
Proof.
  intros Hn Hc Hx HX. unfold decimal. rewrite decimal_digits_app. cbn [append].
  destruct (decimal_digits_shape (Z.to_nat (Z.log2 n)) n (String c s) Hn)
    as (c0 & rest & Heq & Hc0 & Hrest).
  rewrite Heq, parseInt_leading_digit, <- Heq; [|exact Hc0|].
  - rewrite parse_decimal_digits; [| |reflexivity].
    + cbn [parse_digits]. rewrite (not_a_digit_stops c Hc). reflexivity.
    + rewrite Nat2Z.inj_succ, Z2Nat.id by apply Z.log2_nonneg.
      split; [exact Hn|].
      destruct (Z.eq_dec n 0) as [->|Hpos]; [reflexivity|].
      apply Z.log2_spec. lia.
  - destruct Hrest as [->|(c' & rest' & -> & Hc')]; [split; assumption|].
    split; intros ->; discriminate Hc'.
Qed.

(** X15: a limit that starts with the numeral of a non-negative integer
    and goes on with text that [parseInt] does not read (a decimal
    point, a unit, a space) counts as that integer: the list route
    answers with the first [n] products when [n] is positive, and with
    all of them when it is zero. *)
Theorem limit_with_trailing_text env bcrypt_compare omitUndefined o req st n c s :
  0 <= n ->
  is_decimal_digit c = false -> c <> "x"%char -> c <> "X"%char ->
  query_limit req = Some (decimal n ++ String c s)%string ->
  serve env bcrypt_compare omitUndefined GET_products o req st =
    (Ok (mkResponse 200
           (Docs (if 0 <? n then firstn (Z.to_nat n) (products st)
                  else products st))), st).
Proof.
  intros Hn Hc Hx HX Hlimit.
  pose proof (parseInt_decimal_then_text n c s Hn Hc Hx HX) as Hparse.
  rewrite list_handler_answer, Hlimit.
  assert (Htruthy : truthy (Some (decimal n ++ String c s)%string) = true).
  { unfold truthy. destruct (decimal n ++ String c s)%string; [discriminate Hparse|].
    reflexivity. }
  rewrite Htruthy, Hparse. reflexivity.
Qed.

Lemma limit_with_trailing_text_witness :
  serve Sample.cloud_env Sample.toy_bcrypt false GET_products Sample.outage
    (Sample.list_request (Some "2.9")) Sample.showroom
  = (Ok (mkResponse 200 (Docs [Sample.sofa; Sample.lamp])), Sample.showroom).
Proof.
  apply (limit_with_trailing_text Sample.cloud_env Sample.toy_bcrypt false Sample.outage
           (Sample.list_request (Some "2.9")) Sample.showroom 2 "."%char "9");
    try reflexivity; try discriminate.
Defined.

(** ** Names of locally stored files *)

Lemma string_app_assoc (a b c : string) :
  ((a ++ b) ++ c = a ++ (b ++ c))%string.
Proof. induction a as [|x a IH]; simpl; [reflexivity|rewrite IH; reflexivity]. Qed.

Lemma string_app_cancel (a x y : string) :
  (a ++ x = a ++ y)%string -> x = y.
Proof.
  induction a as [|c a IH]; simpl; intros H; [exact H|].
  inversion H. auto.
Qed.

Lemma string_app_empty (a : string) : (a ++ "")%string = a.
Proof. induction a as [|c a IH]; simpl; [reflexivity|rewrite IH; reflexivity]. Qed.

(** A numeral followed by an extension reads back as its integer. *)
Lemma parseInt_decimal_then_extension (n : Z) (ext : string) :
  0 <= n -> is_extension ext -> parseInt (decimal n ++ ext)%string = Some n.
Proof.
  intros Hn Hext. destruct ext as [|c ext].
  - rewrite string_app_empty. apply parseInt_decimal. exact Hn.
  - simpl in Hext. subst c.
    apply parseInt_decimal_then_text; [exact Hn|reflexivity|discriminate|discriminate].
Qed.

Lemma local_filename_parts (now random : Z) (ext : string) :
  0 <= now -> 0 <= random ->
  local_filename now random ext =
    (decimal now ++ String "-" (decimal random ++ ext))%string.
Proof.
  intros Hnow Hrandom. unfold local_filename, uniqueSuffix, numeral.
  apply Z.ltb_ge in Hnow. apply Z.ltb_ge in Hrandom. rewrite Hnow, Hrandom.
  rewrite string_app_assoc. f_equal.
Qed.

(** X17: the names that the local disk storage gives to uploaded files
    do not collide by accident: for clocks and random draws that are not
    negative and extensions as path.extname returns them, two uploads
    get the same name only if they happen at the same millisecond, draw
    the same number and have the same extension. *)
Theorem local_filenames_do_not_collide now random ext now' random' ext' :
  0 <= now -> 0 <= random -> 0 <= now' -> 0 <= random' ->
  is_extension ext -> is_extension ext' ->
  local_filename now random ext = local_filename now' random' ext' ->
  now = now' /\ random = random' /\ ext = ext'.
Proof.
  intros Hnow Hrandom Hnow' Hrandom' Hext Hext' Hsame.
  rewrite !local_filename_parts in Hsame by assumption.
  assert (Hn : now = now').
  { pose proof (parseInt_decimal_then_text now "-" (decimal random ++ ext) Hnow
                  eq_refl ltac:(discriminate) ltac:(discriminate)) as H1.
    pose proof (parseInt_decimal_then_text now' "-" (decimal random' ++ ext') Hnow'
                  eq_refl ltac:(discriminate) ltac:(discriminate)) as H2.
    rewrite Hsame in H1. rewrite H1 in H2. inversion H2. reflexivity. }
  subst now'. apply string_app_cancel in Hsame. inversion Hsame as [Hrest].
  assert (Hr : random = random').
  { pose proof (parseInt_decimal_then_extension random ext Hrandom Hext) as H1.
    pose proof (parseInt_decimal_then_extension random' ext' Hrandom' Hext') as H2.
    rewrite Hrest in H1. rewrite H1 in H2. inversion H2. reflexivity. }
  subst random'. apply string_app_cancel in Hrest. auto.
Qed.

Lemma local_filenames_do_not_collide_witness :
  local_filename 1700000000000 42 ".jpg" = "1700000000000-42.jpg" /\
  (1700000000000 = 1700000000000 /\ 42 = 42 /\ ".jpg" = ".jpg").
Proof.
  split; [reflexivity|].
  apply (local_filenames_do_not_collide 1700000000000 42 ".jpg"
           1700000000000 42 ".jpg"); try discriminate; reflexivity.
Defined.

(** ** Where an uploaded image ends up *)

Lemma cloud_needs_all_three env :
  isCloudinaryConfigured env = true <->
  truthy (CLOUDINARY_CLOUD_NAME env) = true /\
  truthy (CLOUDINARY_API_KEY env) = true /\
  truthy (CLOUDINARY_API_SECRET env) = true.
Proof.
  unfold isCloudinaryConfigured. rewrite !andb_true_iff. tauto.
Qed.

(** X19: the image fields of a product created with a file follow the
    configuration.  With all three Cloudinary variables set, the product
    gets the file's URL and its deletion key; as soon as one of them is
    missing or empty it gets the URL [/uploads/<filename>] and no
    deletion key.  In both cases the product is appended to the
    collection. *)
Theorem created_image_follows_configuration env bcrypt_compare omitUndefined o req st
    user f :
  verifyToken env o req = inr user ->
  truthy_flag (claim_isAdmin user) = true ->
  multipart req = Stored f ->
  truthy (body_name req) = true ->
  truthy (body_category req) = true ->
  exists created st',
    serve env bcrypt_compare omitUndefined POST_products o req st =
      (Ok (mkResponse 201 (MessageProduct "✅ Product added successfully" created)),
       st') /\
    products st' = products st ++ [created] /\
    (truthy (CLOUDINARY_CLOUD_NAME env) = true ->
     truthy (CLOUDINARY_API_KEY env) = true ->
     truthy (CLOUDINARY_API_SECRET env) = true ->
     imageUrl created = Some (path f) /\ cloudinaryId created = Some (filename f)) /\
    (truthy (CLOUDINARY_CLOUD_NAME env) = false \/
     truthy (CLOUDINARY_API_KEY env) = false \/
     truthy (CLOUDINARY_API_SECRET env) = false ->
     imageUrl created = Some ("/uploads/" ++ filename f)%string /\
     cloudinaryId created = None).
Proof.
  intros Hv Hflag Hup Hname Hcat.
  assert (Hmw : uploadMiddleware req = inr (Some f))
    by (unfold uploadMiddleware; rewrite Hup; reflexivity).
  eexists _, _.
  split; [exact (create_by_admin _ _ _ _ _ _ _ _ Hv Hflag Hmw Hname Hcat)|].
  split; [reflexivity|].
  cbn [imageUrl cloudinaryId]. unfold image_fields. split.
  - intros H1 H2 H3.
    rewrite (proj2 (cloud_needs_all_three env) (conj H1 (conj H2 H3))).
    split; reflexivity.
  - intros Hmissing.
    destruct (isCloudinaryConfigured env) eqn:Hcloud; [|split; reflexivity].
    apply cloud_needs_all_three in Hcloud. destruct Hcloud as (H1 & H2 & H3).
    destruct Hmissing as [H|[H|H]]; congruence.
Qed.

Lemma created_image_follows_configuration_witness :
  (* a configuration that lacks the API secret *)
  serve (mkEnv (Some "s3cret") (Some "dream-house") (Some "key") None)
    Sample.toy_bcrypt false POST_products Sample.outage
    Sample.create_with_snapshot Sample.empty_store
  = (Ok (mkResponse 201
           (MessageProduct "✅ Product added successfully" Sample.local_chair)),
     mkState [Sample.root; Sample.clerk] [Sample.local_chair] 11 [Insert 10]).
Proof.
  destruct (created_image_follows_configuration
              (mkEnv (Some "s3cret") (Some "dream-house") (Some "key") None)
              Sample.toy_bcrypt false Sample.outage Sample.create_with_snapshot
              Sample.empty_store Sample.admin_claims Sample.snapshot
              eq_refl eq_refl eq_refl eq_refl eq_refl)
    as (created & st' & Hserve & _).
  reflexivity.
Defined.

(** ** What a deletion leaves *)

Lemma remove_first_split (i : ObjectId) (ps : list Product) (p : Product) :
  find (has_id i) ps = Some p ->
  exists before after : list Product,
    ps = before ++ p :: after /\
    find (has_id i) before = None /\
    remove_first i ps = before ++ after.
Proof.
  induction ps as [|q ps IH]; intros Hfind; [discriminate|].
  simpl in Hfind. simpl. destruct (has_id i q) eqn:Hq.
  - inversion Hfind; subst. exists [], ps. repeat split.
  - destruct (IH Hfind) as (before & after & Hps & Hnone & Hrem).
    exists (q :: before), after. simpl. rewrite Hq.
    split; [f_equal; exact Hps|]. split; [exact Hnone|f_equal; exact Hrem].
Qed.

Lemma find_other_id (i j : ObjectId) (before after : list Product) (p : Product) :
  _id p = i -> j <> i ->
  find (has_id j) (before ++ p :: after) = find (has_id j) (before ++ after).
Proof.
  intros Hp Hne. induction before as [|q before IH]; simpl.
  - unfold has_id at 1. rewrite Hp.
    destruct (i =? j)%N eqn:Heq; [|reflexivity].
    apply N.eqb_eq in Heq. congruence.
  - destruct (has_id j q); [reflexivity|exact IH].
Qed.

(** X20: a DELETE by an admin takes out the one product it names and
    nothing else: the products before it and after it stay, in their
    order, the accounts and the id counter are as they were, and every
    other id finds what it found before. *)
Theorem delete_leaves_the_others env bcrypt_compare omitUndefined o req st user i p :
  verifyToken env o req = inr user ->
  truthy_flag (claim_isAdmin user) = true ->
  params_id req = WellFormed i ->
  find (has_id i) (products st) = Some p ->
  exists (before after : list Product) st',
    products st = before ++ p :: after /\
    serve env bcrypt_compare omitUndefined DELETE_products o req st =
      (Ok (mkResponse 200 (Message "✅ Product deleted successfully.")), st') /\
    products st' = before ++ after /\
    users st' = users st /\
    next_id st' = next_id st /\
    forall j, j <> i ->
      find (has_id j) (products st') = find (has_id j) (products st).
Proof.
  intros Hv Hflag Hid Hfind.
  destruct (remove_first_split i _ _ Hfind) as (before & after & Hps & _ & Hrem).
  exists before, after. eexists.
  split; [exact Hps|].
  split; [exact (delete_by_admin _ _ _ _ _ _ _ _ _ Hv Hflag Hid Hfind)|].
  cbn [products users next_id]. rewrite Hrem.
  do 3 (split; [reflexivity|]).
  intros j Hne. rewrite Hps. symmetry.
  apply find_other_id with (i := i); [exact (find_has_id _ _ _ Hfind)|exact Hne].
Qed.

Lemma delete_leaves_the_others_witness :
  serve Sample.cloud_env Sample.toy_bcrypt false DELETE_products Sample.fair_weather
    (Sample.request (Sample.bearer Sample.admin_claims) (WellFormed 11) NoFile)
    Sample.showroom
  = (Ok (mkResponse 200 (Message "✅ Product deleted successfully.")),
     mkState [Sample.root; Sample.clerk] (Sample.sofa :: tl (tl Sample.five)) 15
       [Remove 11]) /\
  find (has_id 12) (Sample.sofa :: tl (tl Sample.five)) = find (has_id 12) Sample.five.
Proof.
  destruct (delete_leaves_the_others Sample.cloud_env Sample.toy_bcrypt false
              Sample.fair_weather
              (Sample.request (Sample.bearer Sample.admin_claims) (WellFormed 11) NoFile)
              Sample.showroom Sample.admin_claims 11%N Sample.lamp
              eq_refl eq_refl eq_refl eq_refl)
    as (before & after & st' & _).
  split; reflexivity.
Defined.
